(** * Placify: the browser notification manager
    ([src/static/browser_notifications.js], class [BrowserNotificationManager])

    A shallow embedding of the manager and of the part of the browser it
    talks to (console, [fetch], [Notification], timers), followed by the
    properties of the polling / dedup / permission logic.

    Modelling conventions.
    - The fields of the JS object [this] are the record [Manager]; everything
      owned by the browser is the record [Platform].
    - A method is a computation in the monad [M]: it threads the pair
      (manager, platform), may complete abruptly with a JS exception, and
      yields the list of platform effects it performed, in program order.
    - Each [async] method is cut at its [await] into the part that runs
      when it is called and the part that runs when the awaited outcome
      arrives; the outcome is read from the platform ([gateway] for
      [fetch]).  The methods are given twice from these parts.  As a
      computation of [M] a method runs its [await] in place, and where the
      source starts an [async] method without awaiting it ([init],
      [requestPermission]) the caller's remaining synchronous statements
      run before the callee's continuation, as the JS event loop does.  In
      the event loop ([Loop], [turn]) a call stops at the [await] and
      leaves a continuation waiting, so that calls and timers can come
      between the two parts.
    - Time is the firing of timers: when an interval period elapses, every
      active interval timer fires once ([elapseInterval], or one [Fires]
      turn per timer).  A request that never settles is a continuation
      that is never resumed.
    - Notification ids are JSON integers, modelled as [Z]; [null] and
      [undefined] are [None].  The items of a batch have the shape the
      gateway documents ([notification_id], [title], [message], [type],
      [job_id]). *)

From Stdlib Require Import ZArith Ascii String DecimalString.
From Stdlib Require DecimalPos DecimalZ.
From stdpp Require Import gmap strings list fin_maps.

Local Open Scope string_scope.
Local Open Scope Z_scope.
Local Open Scope list_scope.

(** ** JavaScript values *)

(** [s.length] counts UTF-16 code units.  A string literal here is the
    UTF-8 encoding of the source literal: a lead byte below 0xF0 starts a
    code point of the basic plane (one unit), a lead byte from 0xF0 starts
    an astral code point (a surrogate pair, two units), and a continuation
    byte (0x80..0xBF) adds nothing. *)
Definition utf16_units (b : ascii) : nat :=
  let n := nat_of_ascii b in
  if (n <? 128)%nat then 1%nat
  else if (n <? 192)%nat then 0%nat
  else if (n <? 240)%nat then 1%nat
  else 2%nat.

Fixpoint js_length (s : string) : nat :=
  match s with
  | EmptyString => 0%nat
  | String b s' => (utf16_units b + js_length s')%nat
  end.

(** The values an [icon] can hold at run time: a string, [undefined], or
    what [icons[type]] finds on [Object.prototype] when [type] names an
    inherited member (a function with its arity, or, for ["__proto__"], the
    prototype object itself). *)
Inductive JsValue :=
| JsUndefined
| JsString (s : string)
| JsFunction (name : string) (arity : nat)
| JsObjectPrototype.

Definition truthy (v : JsValue) : bool :=
  match v with
  | JsUndefined => false
  | JsString s => negb (String.eqb s EmptyString)
  | JsFunction _ _ => true
  | JsObjectPrototype => true
  end.

(** [v.length <= n]; a missing [length] is [undefined], and
    [undefined <= n] is false. *)
Definition js_length_le (v : JsValue) (n : nat) : bool :=
  match v with
  | JsUndefined => false
  | JsString s => (js_length s <=? n)%nat
  | JsFunction _ arity => (arity <=? n)%nat
  | JsObjectPrototype => false
  end.

(** Truthiness of a number-or-null: [null] and [0] are falsy. *)
Definition truthy_num (v : option Z) : bool :=
  match v with
  | None => false
  | Some z => negb (z =? 0)
  end.

(** Template-literal interpolation of an integer. *)
Definition string_of_Z (z : Z) : string := NilZero.string_of_int (Z.to_int z).

(** The members every object literal inherits from [Object.prototype]
    (ECMAScript standard set, with the arity of each function). *)
Definition Object_prototype (key : string) : JsValue :=
  if String.eqb key "__proto__" then JsObjectPrototype
  else if String.eqb key "constructor" then JsFunction key 1
  else if String.eqb key "hasOwnProperty" then JsFunction key 1
  else if String.eqb key "isPrototypeOf" then JsFunction key 1
  else if String.eqb key "propertyIsEnumerable" then JsFunction key 1
  else if String.eqb key "toLocaleString" then JsFunction key 0
  else if String.eqb key "toString" then JsFunction key 0
  else if String.eqb key "valueOf" then JsFunction key 0
  else if String.eqb key "__defineGetter__" then JsFunction key 2
  else if String.eqb key "__defineSetter__" then JsFunction key 2
  else if String.eqb key "__lookupGetter__" then JsFunction key 1
  else if String.eqb key "__lookupSetter__" then JsFunction key 1
  else JsUndefined.

(** [obj[key]] on an object literal whose own properties are [own]. *)
Definition get_property (own : gmap string string) (key : string) : JsValue :=
  match own !! key with
  | Some v => JsString v
  | None => Object_prototype key
  end.

(** [Math.max(x, ...xs)] on integers. *)
Definition Math_max (x : Z) (xs : list Z) : Z := fold_left Z.max xs x.

(** ** Data model *)

(** [Notification.permission] *)
Inductive NotificationPermission := PermDefault | PermGranted | PermDenied.

Definition permission_eqb (a b : NotificationPermission) : bool :=
  match a, b with
  | PermDefault, PermDefault | PermGranted, PermGranted
  | PermDenied, PermDenied => true
  | _, _ => false
  end.

(** One element of [data.notifications]. *)
Module Notif.
Record t := mk {
  notification_id : Z;
  title : string;
  message : string;
  type : string;
  job_id : option Z
}.
End Notif.

(** The [data] object attached to a displayed notification. *)
Module Data.
Record t := mk {
  notification_id : option Z;
  job_id : option Z;
  url : option string
}.
Definition empty : t := mk None None None.
End Data.

(** The argument object of [showNotification]. *)
Module Args.
Record t := mk {
  title : string;
  body : string;
  icon : JsValue;
  tag : option string;
  data : option Data.t
}.
End Args.

(** What [options.icon] ends up holding: a value assigned as it is (a path
    literal of the source or the caller's [icon]), or the data URL that
    [emojiToDataURL] renders from a glyph. *)
Inductive IconSource :=
| IconRaw (v : JsValue)
| IconDataURL (glyph : JsValue).

(** The [options] object handed to [new Notification]. *)
Module Options.
Record t := mk {
  body : string;
  icon : IconSource;
  badge : string;
  tag : string;
  requireInteraction : bool;
  silent : bool;
  data : Data.t
}.
End Options.

(** The fields of [this]. *)
Record Manager := mkManager {
  permission : NotificationPermission;
  checkInterval : Z;
  lastNotificationId : option Z;
  notificationSound : bool;
  monitoringInterval : option positive
}.

(** What [await fetch(..)] followed by [await response.json()] can yield. *)
Module Response.
Record t := mk {
  success : bool;
  notifications : option (list Notif.t)
}.
End Response.

Inductive FetchOutcome :=
| FetchRejects
| JsonRejects
| JsonNull
| Json (data : Response.t).

Inductive JsError :=
| NetworkError | SyntaxError | TypeError | PermissionError | ReferenceError.

Inductive TimerCallback :=
| CbCheckForNewNotifications
| CbCloseNotification (handle : nat)
| CbRemoveMessage.

Inductive Event :=
| ConsoleLog (msg : string)
| ConsoleWarn (msg : string)
| ConsoleError (msg : string) (error : JsError)
| DomUpdate (what : string)
| Fetch (url : string)
| NewNotification (handle : nat) (title : string) (options : Options.t)
| PlaySound
| SetTimeout (id : positive) (cb : TimerCallback) (ms : Z)
| SetInterval (id : positive) (cb : TimerCallback) (ms : Z)
| ClearInterval (id : positive).

(** The browser side: active interval timers, the next timer id (ids are
    integers greater than zero), how many fetches were issued and how many
    notifications constructed, the server's answers indexed by fetch
    number, the clock read by [Date.now()], whether an [AudioContext] can
    be created, the permission the browser holds for the page and what the
    next permission request resolves to ([None]: it rejects). *)
Record Platform := mkPlatform {
  intervals : gmap positive (TimerCallback * Z);
  nextTimerId : positive;
  fetches : nat;
  shown : nat;
  gateway : nat -> FetchOutcome;
  now : Z;
  audioAvailable : bool;
  browserPermission : NotificationPermission;
  promptAnswer : option NotificationPermission
}.

Record Sys := mkSys { this : Manager; platform : Platform }.

(** ** The effect monad *)

Inductive Completion (A : Type) :=
| Normal (a : A)
| Throw (e : JsError).
Arguments Normal {A} a.
Arguments Throw {A} e.

Definition M (A : Type) : Type := Sys -> Completion A * Sys * list Event.

#[global] Instance M_ret : MRet M := fun A a s => (Normal a, s, []).

#[global] Instance M_bind : MBind M := fun A B f m s =>
  match m s with
  | (Normal a, s1, e1) =>
      match f a s1 with (r, s2, e2) => (r, s2, e1 ++ e2) end
  | (Throw x, s1, e1) => (Throw x, s1, e1)
  end.

(** [try { m } catch (error) { h error }] *)
Definition try_catch {A} (m : M A) (h : JsError -> M A) : M A := fun s =>
  match m s with
  | (Normal a, s1, e1) => (Normal a, s1, e1)
  | (Throw x, s1, e1) =>
      match h x s1 with (r, s2, e2) => (r, s2, e1 ++ e2) end
  end.

Definition throw {A} (e : JsError) : M A := fun s => (Throw e, s, []).
Definition emit (e : Event) : M unit := fun s => (Normal tt, s, [e]).
Definition getThis : M Manager := fun s => (Normal (this s), s, []).
Definition setThis (m : Manager) : M unit :=
  fun s => (Normal tt, mkSys m (platform s), []).
Definition getPlatform : M Platform := fun s => (Normal (platform s), s, []).
Definition setPlatform (p : Platform) : M unit :=
  fun s => (Normal tt, mkSys (this s) p, []).

(** [list.forEach(f)] *)
Fixpoint forEach {A} (l : list A) (f : A -> M unit) : M unit :=
  match l with
  | [] => mret tt
  | x :: l' => f x;; forEach l' f
  end.

(** Final state, outcome and effects of running a method. *)
Definition exec {A} (m : M A) (s : Sys) : Sys := snd (fst (m s)).
Definition outcome {A} (m : M A) (s : Sys) : Completion A := fst (fst (m s)).
Definition effects {A} (m : M A) (s : Sys) : list Event := snd (m s).

(** ** Platform operations *)

Definition console_log (msg : string) : M unit := emit (ConsoleLog msg).
Definition console_warn (msg : string) : M unit := emit (ConsoleWarn msg).
Definition console_error (msg : string) (e : JsError) : M unit :=
  emit (ConsoleError msg e).

(** [fetch(url)]: the request is issued at the call; its outcome is the
    gateway's answer to that request. *)
Definition fetch (url : string) : M FetchOutcome :=
  p ← getPlatform;
  setPlatform (mkPlatform (intervals p) (nextTimerId p) (S (fetches p))
                 (shown p) (gateway p) (now p) (audioAvailable p)
                 (browserPermission p) (promptAnswer p));;
  emit (Fetch url);;
  mret (gateway p (fetches p)).

Definition with_timers (iv : gmap positive (TimerCallback * Z))
    (next : positive) (p : Platform) : Platform :=
  mkPlatform iv next (fetches p) (shown p) (gateway p) (now p)
    (audioAvailable p) (browserPermission p) (promptAnswer p).

(** [setInterval(cb, ms)]: registers a repeating timer under a fresh id. *)
Definition setInterval (cb : TimerCallback) (ms : Z) : M positive :=
  p ← getPlatform;
  let id := nextTimerId p in
  setPlatform (with_timers (<[id := (cb, ms)]> (intervals p)) (Pos.succ id) p);;
  emit (SetInterval id cb ms);;
  mret id.

(** [setTimeout(cb, ms)]: one-shot timers draw their ids from the same
    pool; the callbacks the manager schedules this way only close a
    notification or restyle the page, so only the scheduling is recorded. *)
Definition setTimeout (cb : TimerCallback) (ms : Z) : M positive :=
  p ← getPlatform;
  let id := nextTimerId p in
  setPlatform (with_timers (intervals p) (Pos.succ id) p);;
  emit (SetTimeout id cb ms);;
  mret id.

(** [clearInterval(id)]: a no-op on an id that is not active. *)
Definition clearInterval (id : positive) : M unit :=
  p ← getPlatform;
  setPlatform (with_timers (delete id (intervals p)) (nextTimerId p) p);;
  emit (ClearInterval id).

(** [new Notification(title, options)] *)
Definition newNotification (title : string) (options : Options.t) : M nat :=
  p ← getPlatform;
  setPlatform (mkPlatform (intervals p) (nextTimerId p) (fetches p)
                 (S (shown p)) (gateway p) (now p) (audioAvailable p)
                 (browserPermission p) (promptAnswer p));;
  emit (NewNotification (shown p) title options);;
  mret (shown p).

Definition Date_now : M Z := p ← getPlatform; mret (now p).

(** [await Notification.requestPermission()] *)
Definition Notification_requestPermission : M NotificationPermission :=
  p ← getPlatform;
  match promptAnswer p with
  | None => throw PermissionError
  | Some answer =>
      setPlatform (mkPlatform (intervals p) (nextTimerId p) (fetches p)
                     (shown p) (gateway p) (now p) (audioAvailable p)
                     answer (promptAnswer p));;
      mret answer
  end.

(** ** The manager's methods *)

Definition setPermission (v : NotificationPermission) : M unit :=
  self ← getThis;
  setThis (mkManager v (checkInterval self) (lastNotificationId self)
             (notificationSound self) (monitoringInterval self)).

Definition setLastNotificationId (v : option Z) : M unit :=
  self ← getThis;
  setThis (mkManager (permission self) (checkInterval self) v
             (notificationSound self) (monitoringInterval self)).

Definition setNotificationSound (v : bool) : M unit :=
  self ← getThis;
  setThis (mkManager (permission self) (checkInterval self)
             (lastNotificationId self) v (monitoringInterval self)).

Definition setMonitoringInterval (v : option positive) : M unit :=
  self ← getThis;
  setThis (mkManager (permission self) (checkInterval self)
             (lastNotificationId self) (notificationSound self) v).

(** The page-decoration helpers read and write no field of the manager.
    [showPermissionPrompt] inserts the prompt.  [dismissPrompt] restyles
    the prompt when the page holds one and removes it 300 ms later; the
    elements of the page are not modelled, so only the update is
    recorded. *)
Definition showPermissionPrompt : M unit := emit (DomUpdate "notificationPrompt").
Definition dismissPrompt : M unit := emit (DomUpdate "dismissPrompt").

(** [showSuccessMessage] and [showDeniedMessage] insert their message and
    schedule its removal, 3 and 5 seconds later. *)
Definition showSuccessMessage : M unit :=
  emit (DomUpdate "Notifications Enabled!");;
  setTimeout CbRemoveMessage 3000;;
  mret tt.

Definition showDeniedMessage : M unit :=
  emit (DomUpdate "Notifications Blocked");;
  setTimeout CbRemoveMessage 5000;;
  mret tt.

(** [createNotificationSound]: [notificationSound] becomes the tone
    closure unless the [AudioContext] cannot be built. *)
Definition createNotificationSound : M unit :=
  p ← getPlatform;
  if audioAvailable p then setNotificationSound true
  else console_warn "Could not create notification sound:".

(** [playSound]: the tone closure is called when it exists; a failure
    inside it only warns and is not modelled. *)
Definition playSound : M unit :=
  self ← getThis;
  if notificationSound self then emit PlaySound else mret tt.

(** [emojiToDataURL(emoji)]: the canvas rendering of the glyph. *)
Definition emojiToDataURL (emoji : JsValue) : IconSource := IconDataURL emoji.

Definition bell : string := "🔔".

Definition is_string (v : JsValue) (s : string) : bool :=
  match v with
  | JsString s' => String.eqb s' s
  | _ => false
  end.

(** The [options] literal of [showNotification], with the emoji override
    that follows it.  The constant fields [vibrate] and [actions] are left
    out. *)
Definition optionsFor (a : Args.t) : Options.t :=
  let icon := Args.icon a in
  let data := default Data.empty (Args.data a) in
  let tag :=
    match Args.tag a with
    | Some t => if String.eqb t EmptyString then "job-notification" else t
    | None => "job-notification"
    end in
  let icon0 :=
    if is_string icon bell then IconRaw (JsString "/static/icon-bell.png")
    else if truthy icon then IconRaw icon
    else IconRaw (JsString "/static/icon-job.png") in
  let icon1 :=
    if truthy icon && js_length_le icon 2 then emojiToDataURL icon
    else icon0 in
  Options.mk (Args.body a) icon1 "/static/badge.png" tag false false data.

(** [showNotification({ title, body, icon, tag, data = {} })].  The click
    handler, which runs only on a user click, is left out. *)
Definition showNotification (a : Args.t) : M (option nat) :=
  self ← getThis;
  if negb (permission_eqb (permission self) PermGranted) then
    console_log "⊘ Cannot show notification - permission not granted";;
    mret None
  else
    notification ← newNotification (Args.title a) (optionsFor a);
    playSound;;
    setTimeout (CbCloseNotification notification) 10000;;
    mret (Some notification).

Definition showTestNotification : M unit :=
  showNotification
    (Args.mk "🎉 Notifications Enabled!"
       "You'll now receive alerts for new jobs and urgent deadlines"
       (JsString bell) (Some "test-notification") None);;
  mret tt.

Definition endpoint : string := "/api/notifications?unread_only=true&limit=5".

(** The test guarding the early [return] of the [forEach] callback:
    [this.lastNotificationId && notif.notification_id <= this.lastNotificationId]. *)
Definition alreadyShown (last : option Z) (id : Z) : bool :=
  match last with
  | Some w => truthy_num last && (id <=? w)
  | None => false
  end.

(** The icon chosen for a polled item from [notif.type]. *)
Definition iconForType (type : string) : string :=
  if String.eqb type "critical" then "🔥"
  else if String.eqb type "urgent" then "⚡"
  else if String.eqb type "new_job" then "💼"
  else bell.

(** [jobId ? `/jobs#job-${jobId}` : '/jobs'] *)
Definition jobUrl (jobId : option Z) : string :=
  match jobId with
  | Some j => if truthy_num jobId then ("/jobs#job-" ++ string_of_Z j)%string
              else "/jobs"
  | None => "/jobs"
  end.

(** The body of the [forEach] callback, for one item of the batch. *)
Definition showPolled (notif : Notif.t) : M unit :=
  self ← getThis;
  if alreadyShown (lastNotificationId self) (Notif.notification_id notif)
  then mret tt
  else
    let icon := iconForType (Notif.type notif) in
    showNotification
      (Args.mk (Notif.title notif) (Notif.message notif) (JsString icon)
         (Some ("notification-" ++ string_of_Z (Notif.notification_id notif))%string)
         (Some (Data.mk (Some (Notif.notification_id notif))
                  (Notif.job_id notif) (Some (jobUrl (Notif.job_id notif))))));;
    mret tt.

(** [checkForNewNotifications] up to its first [await]: the request. *)
Definition checkForNewNotifications_call : M FetchOutcome := fetch endpoint.

(** [checkForNewNotifications] from the first [await] on.  A rejected
    [fetch] or [json()] and a property access on [null] or [undefined]
    throw into the [catch]. *)
Definition checkForNewNotifications_resume (o : FetchOutcome) : M unit :=
  try_catch
    (data ← match o with
            | FetchRejects => throw NetworkError
            | JsonRejects => throw SyntaxError
            | JsonNull => throw TypeError
            | Json d => mret d
            end;
     if negb (Response.success data) then mret tt
     else
       match Response.notifications data with
       | None => throw TypeError
       | Some notifications =>
           forEach notifications showPolled;;
           match notifications with
           | [] => mret tt
           | n :: ns =>
               setLastNotificationId
                 (Some (Math_max (Notif.notification_id n)
                          (map Notif.notification_id ns)))
           end
       end)
    (fun error => console_error "Error checking notifications:" error).

Definition checkForNewNotifications : M unit :=
  o ← checkForNewNotifications_call;
  checkForNewNotifications_resume o.

(** [startMonitoring] up to the [await] inside the initial check. *)
Definition startMonitoring_call : M FetchOutcome :=
  console_log "🔄 Starting notification monitoring...";;
  checkForNewNotifications_call.

(** [startMonitoring] after the initial check: the [setInterval] and the
    closing log (whose quotient is exact for the multiples of 1000 that
    [checkInterval] holds). *)
Definition startMonitoring_schedule : M unit :=
  self ← getThis;
  id ← setInterval CbCheckForNewNotifications (checkInterval self);
  setMonitoringInterval (Some id);;
  self ← getThis;
  console_log ("✅ Monitoring every " ++ string_of_Z (checkInterval self / 1000)
               ++ " seconds")%string.

(** [startMonitoring] once the initial check's request has settled. *)
Definition startMonitoring_resume (o : FetchOutcome) : M unit :=
  checkForNewNotifications_resume o;;
  startMonitoring_schedule.

Definition startMonitoring : M unit :=
  o ← startMonitoring_call;
  startMonitoring_resume o.

(** Timer ids are positive, so [if (this.monitoringInterval)] tests only
    whether the field was ever assigned. *)
Definition stopMonitoring : M unit :=
  self ← getThis;
  match monitoringInterval self with
  | Some id =>
      clearInterval id;;
      console_log "⏹️ Monitoring stopped"
  | None => mret tt
  end.

(** The [icons] table of [triggerNotification]. *)
Definition icons : gmap string string :=
  list_to_map
    [("critical", "🔥"); ("urgent", "⚡"); ("new_job", "💼");
     ("deadline", "⏰"); ("success", "✅"); ("info", "💡")].

(** [icons[type] || '🔔'] *)
Definition manualIcon (type : string) : JsValue :=
  let v := get_property icons type in
  if truthy v then v else JsString bell.

Definition triggerNotification (type title message : string)
    (jobId : option Z) : M unit :=
  t ← Date_now;
  showNotification
    (Args.mk title message (manualIcon type)
       (Some ("manual-" ++ string_of_Z t)%string)
       (Some (Data.mk None jobId (Some (jobUrl jobId)))));;
  mret tt.

(** [init].  The constructor has read [Notification.permission] already,
    so the page has a [Notification] global and the unsupported-browser
    exit is not taken.  [startMonitoring] is started, not awaited:
    [createNotificationSound] runs before its continuation. *)
Definition init : M unit :=
  console_log "🔔 Initializing Browser Notifications...";;
  self ← getThis;
  pending ← match permission self with
            | PermDefault => showPermissionPrompt;; mret None
            | PermGranted =>
                console_log "✅ Notification permission already granted";;
                o ← startMonitoring_call;
                mret (Some o)
            | PermDenied =>
                console_log "⊘ Notification permission denied";;
                mret None
            end;
  createNotificationSound;;
  match pending with
  | Some o => startMonitoring_resume o
  | None => mret tt
  end.

(** [constructor], on a browser that has the [Notification] global.  Where
    there is none, its first statement throws a [ReferenceError]; that
    case is taken by [onDOMContentLoaded]. *)
Definition constructor : M unit :=
  p ← getPlatform;
  setThis (mkManager (browserPermission p) 30000 None false None);;
  init.

(** [requestPermission].  [startMonitoring] is started inside the [try],
    not awaited; its continuation runs after the method has finished. *)
Definition requestPermission : M unit :=
  pending ← try_catch
    (permission ← Notification_requestPermission;
     setPermission permission;;
     if permission_eqb permission PermGranted then
       console_log "✅ Notification permission granted!";;
       showSuccessMessage;;
       dismissPrompt;;
       o ← startMonitoring_call;
       showTestNotification;;
       mret (Some o)
     else
       console_log "⊘ Notification permission denied";;
       showDeniedMessage;;
       mret None)
    (fun error =>
       console_error "Error requesting permission:" error;;
       mret None);
  match pending with
  | Some o => startMonitoring_resume o
  | None => mret tt
  end.

(** ** Driving the manager *)

(** What the browser runs when a timer fires. *)
Definition fire (cb : TimerCallback) : M unit :=
  match cb with
  | CbCheckForNewNotifications => checkForNewNotifications
  | CbCloseNotification _ => mret tt
  | CbRemoveMessage => mret tt
  end.

(** One interval period elapses: every active interval timer fires once. *)
Definition elapseInterval : M unit :=
  p ← getPlatform;
  forEach (map_to_list (intervals p)) (fun t => fire (fst (snd t))).

Fixpoint elapse (periods : nat) : M unit :=
  match periods with
  | O => mret tt
  | S n => elapseInterval;; elapse n
  end.

(** The calls a page can make on a constructed manager, and the passing
    of time. *)
Inductive Op :=
| OpRequestPermission
| OpStartMonitoring
| OpStopMonitoring
| OpCheckForNewNotifications
| OpShowNotification (a : Args.t)
| OpTriggerNotification (type title message : string) (jobId : option Z)
| OpElapse (periods : nat).

Definition step (op : Op) : M unit :=
  match op with
  | OpRequestPermission => requestPermission
  | OpStartMonitoring => startMonitoring
  | OpStopMonitoring => stopMonitoring
  | OpCheckForNewNotifications => checkForNewNotifications
  | OpShowNotification a => showNotification a;; mret tt
  | OpTriggerNotification type title message jobId =>
      triggerNotification type title message jobId
  | OpElapse n => elapse n
  end.

Definition run (ops : list Op) : M unit := forEach ops step.

(** ** Observations *)

Definition isFetch (e : Event) : bool :=
  match e with Fetch _ => true | _ => false end.

(** The platform display operation: a [Notification] is constructed or
    the alert tone is played. *)
Definition isDisplay (e : Event) : bool :=
  match e with NewNotification _ _ _ | PlaySound => true | _ => false end.

Definition isConsoleError (e : Event) : bool :=
  match e with ConsoleError _ _ => true | _ => false end.

Definition isIntervalEvent (e : Event) : bool :=
  match e with SetInterval _ _ _ | ClearInterval _ => true | _ => false end.

(** The [notification_id] carried by a constructed notification. *)
Definition displayedId (e : Event) : option Z :=
  match e with
  | NewNotification _ _ o => Data.notification_id (Options.data o)
  | _ => None
  end.

Definition displayedIds (evs : list Event) : list Z := omap displayedId evs.

(** The answer the gateway gives to the next request. *)
Definition nextOutcome (s : Sys) : FetchOutcome :=
  gateway (platform s) (fetches (platform s)).

(** A poll fails when the request or the JSON parse rejects, when the body
    is [null], carries a falsy [success], or lacks the [notifications]
    array. *)
Definition pollFails (o : FetchOutcome) : bool :=
  match o with
  | Json d =>
      negb (Response.success d)
      || match Response.notifications d with None => true | Some _ => false end
  | _ => true
  end.

(** The exception a failing poll throws into the [catch], if any. *)
Definition thrownBy (o : FetchOutcome) : option JsError :=
  match o with
  | FetchRejects => Some NetworkError
  | JsonRejects => Some SyntaxError
  | JsonNull => Some TypeError
  | Json d =>
      if Response.success d then
        match Response.notifications d with
        | None => Some TypeError
        | Some _ => None
        end
      else None
  end.

(** Every active interval timer is the one recorded in
    [this.monitoringInterval]. *)
Definition onlyTrackedTimer (s : Sys) : bool :=
  forallb
    (fun t => match monitoringInterval (this s) with
              | Some id => Pos.eqb (fst t) id
              | None => false
              end)
    (map_to_list (intervals (platform s))).

Definition isRequestPermission (op : Op) : bool :=
  match op with OpRequestPermission => true | _ => false end.

(** [k] successive poll ticks. *)
Fixpoint ticks (k : nat) : M unit :=
  match k with
  | O => mret tt
  | S k' => checkForNewNotifications;; ticks k'
  end.

(** ** Concrete pages *)

Definition item (id : Z) (type : string) : Notif.t :=
  Notif.mk id "New job posted" "A new job matches your profile" type None.

Definition batch (ids : list Z) : FetchOutcome :=
  Json (Response.mk true (Some (map (fun id => item id "new_job") ids))).

(** A browser with no timer running, holding permission [perm] for the
    page, whose user answers a permission request with [answer] and whose
    gateway answers the successive requests with [answers] and rejects
    afterwards. *)
Definition browser (perm answer : NotificationPermission)
    (answers : list FetchOutcome) : Platform :=
  mkPlatform ∅ 1%positive 0 0 (fun n => nth n answers FetchRejects) 0 true
    perm (Some answer).

(** The page as [new BrowserNotificationManager()] finds it: the
    constructor initialises the fields of [this], and
    [monitoringInterval] starts out [undefined]. *)
Definition page (perm answer : NotificationPermission)
    (answers : list FetchOutcome) : Sys :=
  mkSys (mkManager PermDefault 0 None false None) (browser perm answer answers).

Definition loaded (perm answer : NotificationPermission)
    (answers : list FetchOutcome) : Sys :=
  exec constructor (page perm answer answers).

(** A page whose user has blocked notifications. *)
Definition blockedPage : Sys := loaded PermDenied PermDenied [batch [7; 8]].

(** A page whose user has not decided, on a browser whose permission
    request rejects. *)
Definition unansweredPage : Sys :=
  exec constructor
    (mkSys (mkManager PermDefault 0 None false None)
       (mkPlatform ∅ 1%positive 0 0 (fun _ => FetchRejects) 0 true
          PermDefault None)).

(** A monitoring page whose second poll is answered [success:false]. *)
Definition refusedPoll : Sys :=
  loaded PermGranted PermGranted [batch [4]; Json (Response.mk false None)].

(** A monitoring page whose second poll meets a network error. *)
Definition brokenPoll : Sys :=
  loaded PermGranted PermGranted [batch [4]; FetchRejects].

(** A page where "Enable Alerts" was answered twice, then monitoring was
    stopped. *)
Definition stoppedAfterTwoStarts : Sys :=
  exec (run [OpRequestPermission; OpRequestPermission; OpStopMonitoring])
    (loaded PermDefault PermGranted []).

(** A page where monitoring was started once. *)
Definition monitoringPage : Sys := loaded PermGranted PermGranted [batch [4]].

(** Calls made on a loaded page, none of them a permission request. *)
Definition afterLoad : list Op :=
  [OpCheckForNewNotifications; OpStopMonitoring; OpStartMonitoring;
   OpTriggerNotification "urgent" "Deadline" "Apply today" (Some 12);
   OpElapse 2].

(** A monitoring page polled with batches [5], [3], [5]. *)
Definition reappearing : Sys :=
  page PermGranted PermGranted [batch [5]; batch [3]; batch [5]].


(** ** Vocabulary for the proofs *)

(** A computation that always completes normally. *)
Definition normal {A} (m : M A) : Prop :=
  forall s, exists a, outcome m s = Normal a.

(** A computation whose final state is always related to its initial one. *)
Definition keeps {A} (R : Sys -> Sys -> Prop) (m : M A) : Prop :=
  forall s, R s (exec m s).

(** A computation all of whose effects satisfy [P]. *)
Definition emits {A} (P : Event -> bool) (m : M A) : Prop :=
  forall s, forallb P (effects m s) = true.

(** A computation that keeps the invariant [I] and, under it, emits only
    effects satisfying [P]. *)
Definition quietUnder {A} (I : Sys -> Prop) (P : Event -> bool) (m : M A) : Prop :=
  forall s, I s -> I (exec m s) /\ forallb P (effects m s) = true.

(** The guard of [showNotification] fails. *)
Definition notGranted (s : Sys) : Prop :=
  permission_eqb (permission (this s)) PermGranted = false.

Definition sameThis (s s' : Sys) : Prop := this s' = this s.
Definition samePermission (s s' : Sys) : Prop :=
  permission (this s') = permission (this s).
Definition sameCheckInterval (s s' : Sys) : Prop :=
  checkInterval (this s') = checkInterval (this s).
Definition sameIntervals (s s' : Sys) : Prop :=
  intervals (platform s') = intervals (platform s).
Definition sameFetches (s s' : Sys) : Prop :=
  fetches (platform s') = fetches (platform s).
Definition sameGateway (s s' : Sys) : Prop :=
  gateway (platform s') = gateway (platform s).

Definition withWatermark (w : option Z) (m : Manager) : Manager :=
  mkManager (permission m) (checkInterval m) w (notificationSound m)
    (monitoringInterval m).

(** The items the [forEach] of a poll iterates over. *)
Definition batchOf (o : FetchOutcome) : list Notif.t :=
  match o with
  | Json d =>
      if Response.success d then default [] (Response.notifications d) else []
  | _ => []
  end.

(** The Watermark a poll leaves behind. *)
Definition watermarkAfter (o : FetchOutcome) (last : option Z) : option Z :=
  match batchOf o with
  | [] => last
  | n :: ns =>
      Some (Math_max (Notif.notification_id n) (map Notif.notification_id ns))
  end.

Definition fetchCount (evs : list Event) : nat :=
  length (List.filter isFetch evs).

(** The ids a poll lets through its already-seen test. *)
Definition passing (last : option Z) (ns : list Notif.t) : list Z :=
  map Notif.notification_id
    (List.filter (fun n => negb (alreadyShown last (Notif.notification_id n))) ns).

(** ** The rest of the page *)

(** The [notification.onclick] handler installed by [showNotification],
    for the notification [handle] shown with [data]: it cancels the default
    action, focuses the window, navigates to [data.url] when that is truthy
    and to ['/jobs'] otherwise, and closes the notification. *)
Inductive ClickEffect :=
| PreventDefault
| WindowFocus
| Navigate (href : string)
| CloseNotification (handle : nat).

Definition clickTarget (data : Data.t) : string :=
  match Data.url data with
  | Some u => if String.eqb u EmptyString then "/jobs" else u
  | None => "/jobs"
  end.

Definition onclick (handle : nat) (data : Data.t) : list ClickEffect :=
  [PreventDefault; WindowFocus; Navigate (clickTarget data);
   CloseNotification handle].

(** The argument objects built by the poll, the manual trigger and the
    confirmation alert. *)
Definition polledArgs (notif : Notif.t) : Args.t :=
  Args.mk (Notif.title notif) (Notif.message notif)
    (JsString (iconForType (Notif.type notif)))
    (Some ("notification-" ++ string_of_Z (Notif.notification_id notif))%string)
    (Some (Data.mk (Some (Notif.notification_id notif)) (Notif.job_id notif)
             (Some (jobUrl (Notif.job_id notif))))).

Definition manualArgs (type title message : string) (jobId : option Z)
    (t : Z) : Args.t :=
  Args.mk title message (manualIcon type)
    (Some ("manual-" ++ string_of_Z t)%string)
    (Some (Data.mk None jobId (Some (jobUrl jobId)))).

Definition testArgs : Args.t :=
  Args.mk "🎉 Notifications Enabled!"
    "You'll now receive alerts for new jobs and urgent deadlines"
    (JsString bell) (Some "test-notification") None.

(** ** Further observations *)

(** Title and options of the notifications constructed, in order. *)
Definition displayedAs (e : Event) : option (string * Options.t) :=
  match e with
  | NewNotification _ title o => Some (title, o)
  | _ => None
  end.

Definition displayed (evs : list Event) : list (string * Options.t) :=
  omap displayedAs evs.

(** Handles of the notifications constructed, and handles for which a
    10-second closing timeout was scheduled, in order. *)
Definition opened (e : Event) : option nat :=
  match e with NewNotification h _ _ => Some h | _ => None end.

Definition closing (e : Event) : option nat :=
  match e with
  | SetTimeout _ (CbCloseNotification h) ms =>
      if ms =? 10000 then Some h else None
  | _ => None
  end.

Definition isPlaySound (e : Event) : bool :=
  match e with PlaySound => true | _ => false end.

Definition isNetworkOrTimer (e : Event) : bool :=
  match e with
  | Fetch _ | SetInterval _ _ _ | ClearInterval _ | SetTimeout _ _ _
  | NewNotification _ _ _ | PlaySound => true
  | _ => false
  end.

(** The items a poll lets through its already-seen test. *)
Definition fresh (last : option Z) (ns : list Notif.t) : list Notif.t :=
  List.filter (fun n => negb (alreadyShown last (Notif.notification_id n))) ns.

(** Every active interval timer runs the poll. *)
Definition pollingOnly (s : Sys) : bool :=
  forallb
    (fun t => match fst (snd t) with
              | CbCheckForNewNotifications => true
              | CbCloseNotification _ => false
              | CbRemoveMessage => false
              end)
    (map_to_list (intervals (platform s))).

(** A computation the trace of whose effects always satisfies [Q]. *)
Definition traces {A} (Q : list Event -> Prop) (m : M A) : Prop :=
  forall s, Q (effects m s).

(** Each notification constructed gets its closing timeout, and nothing
    else does. *)
Definition closesWhatItOpens (evs : list Event) : Prop :=
  omap opened evs = omap closing evs.

(** No tone closure and no way to build one. *)
Definition noAudio (s : Sys) : Prop :=
  notificationSound (this s) = false /\ audioAvailable (platform s) = false.

Definition sameHandle (s s' : Sys) : Prop :=
  monitoringInterval (this s') = monitoringInterval (this s).
Definition sameSound (s s' : Sys) : Prop :=
  notificationSound (this s') = notificationSound (this s).
Definition samePlatformPermission (s s' : Sys) : Prop :=
  browserPermission (platform s') = browserPermission (platform s).

(** A page loaded by a logged-in user with two polls pending, and one that
    has no audio. *)
Definition newsPage : Sys :=
  loaded PermGranted PermGranted [batch [4]; batch [9; 2; 6]].

Definition mutePage : Platform :=
  mkPlatform ∅ 1%positive 0 0 (fun _ => batch [3]) 0 false PermGranted
    (Some PermGranted).

(** ** The event loop *)

(** The methods above run every [await] in place.  The browser does not:
    an [async] method returns to its caller at its first [await], and its
    continuation runs as a later task, after whatever was called or fired
    in between.  A [Loop] keeps, beside manager and platform, the
    continuations still waiting: a [requestPermission] at its dialog, a
    poll at its request, a [startMonitoring] at its initial poll.  (The
    two awaits of a poll, on the response and on its body, have nothing
    between them and count as one; the one-shot timeouts, which only close
    a notification or restyle the page, take no turn.) *)
Inductive Pending :=
| AwaitingPermission
| AwaitingCheck (o : FetchOutcome)
| AwaitingStart (o : FetchOutcome).

Record Loop := mkLoop { sys : Sys; pending : list Pending }.

(** [requestPermission] from its [await] to the end of the method; the
    [startMonitoring] it starts without awaiting is handed back. *)
Definition requestPermission_settle : M (option FetchOutcome) :=
  try_catch
    (permission ← Notification_requestPermission;
     setPermission permission;;
     if permission_eqb permission PermGranted then
       console_log "✅ Notification permission granted!";;
       showSuccessMessage;;
       dismissPrompt;;
       o ← startMonitoring_call;
       showTestNotification;;
       mret (Some o)
     else
       console_log "⊘ Notification permission denied";;
       showDeniedMessage;;
       mret None)
    (fun error =>
       console_error "Error requesting permission:" error;;
       mret None).

(** [init] and the constructor to the end of their synchronous run; the
    [startMonitoring] that [init] starts without awaiting is handed back. *)
Definition init_call : M (option FetchOutcome) :=
  console_log "🔔 Initializing Browser Notifications...";;
  self ← getThis;
  started ← match permission self with
            | PermDefault => showPermissionPrompt;; mret None
            | PermGranted =>
                console_log "✅ Notification permission already granted";;
                o ← startMonitoring_call;
                mret (Some o)
            | PermDenied =>
                console_log "⊘ Notification permission denied";;
                mret None
            end;
  createNotificationSound;;
  mret started.

Definition constructor_call : M (option FetchOutcome) :=
  p ← getPlatform;
  setThis (mkManager (browserPermission p) 30000 None false None);;
  init_call.

(** What the page can call on the manager. *)
Inductive PageCall :=
| CallRequestPermission
| CallStartMonitoring
| CallStopMonitoring
| CallCheckForNewNotifications
| CallShowNotification (a : Args.t)
| CallTriggerNotification (type title message : string) (jobId : option Z).

(** One task of the loop: a call by the page, an interval timer elapsing,
    or the [i]-th waiting continuation being resumed. *)
Inductive Turn :=
| Calls (c : PageCall)
| Fires (id : positive)
| Settles (i : nat).

(** Runs [m] to its end and queues the continuations [k] it leaves. *)
Definition spawn {A} (m : M A) (k : A -> list Pending) (l : Loop)
    : Loop * list Event :=
  match m (sys l) with
  | (Normal a, s, evs) => (mkLoop s (pending l ++ k a), evs)
  | (Throw _, s, evs) => (mkLoop s (pending l), evs)
  end.

Definition startedBy (o : option FetchOutcome) : list Pending :=
  match o with
  | Some o => [AwaitingStart o]
  | None => []
  end.

Definition pageCall (c : PageCall) (l : Loop) : Loop * list Event :=
  match c with
  | CallRequestPermission => (mkLoop (sys l) (pending l ++ [AwaitingPermission]), [])
  | CallStartMonitoring => spawn startMonitoring_call (fun o => [AwaitingStart o]) l
  | CallStopMonitoring => spawn stopMonitoring (fun _ => []) l
  | CallCheckForNewNotifications =>
      spawn checkForNewNotifications_call (fun o => [AwaitingCheck o]) l
  | CallShowNotification a => spawn (showNotification a) (fun _ => []) l
  | CallTriggerNotification type title message jobId =>
      spawn (triggerNotification type title message jobId) (fun _ => []) l
  end.

Definition resume (p : Pending) (l : Loop) : Loop * list Event :=
  match p with
  | AwaitingPermission => spawn requestPermission_settle startedBy l
  | AwaitingCheck o => spawn (checkForNewNotifications_resume o) (fun _ => []) l
  | AwaitingStart o => spawn (startMonitoring_resume o) (fun _ => []) l
  end.

(** A timer that was cleared never fires; a continuation is resumed once. *)
Definition turn (t : Turn) (l : Loop) : Loop * list Event :=
  match t with
  | Calls c => pageCall c l
  | Fires id =>
      match intervals (platform (sys l)) !! id with
      | Some (CbCheckForNewNotifications, _) =>
          spawn checkForNewNotifications_call (fun o => [AwaitingCheck o]) l
      | _ => (l, [])
      end
  | Settles i =>
      match pending l !! i with
      | Some p => resume p (mkLoop (sys l) (delete i (pending l)))
      | None => (l, [])
      end
  end.

Fixpoint turns (ts : list Turn) (l : Loop) : Loop * list Event :=
  match ts with
  | [] => (l, [])
  | t :: ts' =>
      match turn t l with
      | (l1, evs1) =>
          match turns ts' l1 with (l2, evs2) => (l2, evs1 ++ evs2) end
      end
  end.

(** Time passing, as opposed to the page calling. *)
Definition isTimePassing (t : Turn) : bool :=
  match t with
  | Calls _ => false
  | Fires _ | Settles _ => true
  end.

(** A call that can lead to a [startMonitoring]. *)
Definition isStarting (t : Turn) : bool :=
  match t with
  | Calls CallRequestPermission | Calls CallStartMonitoring => true
  | _ => false
  end.

(** A continuation that can still register a timer. *)
Definition isStartAhead (p : Pending) : bool :=
  match p with
  | AwaitingCheck _ => false
  | AwaitingPermission | AwaitingStart _ => true
  end.

Definition startsAhead (l : Loop) : nat :=
  length (List.filter isStartAhead (pending l)).

Definition noStartAhead (l : Loop) : bool :=
  forallb (fun p => negb (isStartAhead p)) (pending l).

Definition stopped (l : Loop) : Loop :=
  fst (turn (Calls CallStopMonitoring) l).

(** What [new] hands to the constructor on the browser [p]. *)
Definition newPage (p : Platform) : Sys :=
  mkSys (mkManager PermDefault 0 None false None) p.

(** The [DOMContentLoaded] listener.  Only when the page shows the
    dashboard link of a logged-in user is a manager constructed; the
    constructor reads [Notification.permission] first of all, which throws
    where the browser has no [Notification], leaving the global
    [browserNotifications] undefined.  Otherwise the manager is stored and
    announced as soon as the constructor returns, with the
    [startMonitoring] that [init] may have started still waiting. *)
Definition onDOMContentLoaded (isLoggedIn hasNotification : bool)
    (p : Platform) : Completion unit * option Loop * list Event :=
  if isLoggedIn then
    if hasNotification then
      match constructor_call (newPage p) with
      | (Normal o, s, evs) =>
          (Normal tt, Some (mkLoop s (startedBy o)),
           evs ++ [ConsoleLog "✅ Browser Notifications Ready"])
      | (Throw e, s, evs) => (Throw e, None, evs)
      end
    else (Throw ReferenceError, None, [])
  else (Normal tt, None, []).

(** The [beforeunload] listener: [stopMonitoring] on the global manager,
    if there is one. *)
Definition onBeforeUnload (browserNotifications : option Loop)
    : option Loop * list Event :=
  match browserNotifications with
  | Some l => (Some (stopped l), snd (turn (Calls CallStopMonitoring) l))
  | None => (None, [])
  end.

(** No permission request is waiting for its answer. *)
Definition noPermissionAhead (l : Loop) : bool :=
  forallb (fun p => match p with AwaitingPermission => false | _ => true end)
    (pending l).

(** The timer bookkeeping of a manager that is started at most once at a
    time: either nothing is waiting that could register a timer and every
    active timer is the recorded one, or one [startMonitoring] is waiting
    for its first poll and no timer is active. *)
Definition tracking (l : Loop) : Prop :=
  noPermissionAhead l = true
  /\ ((startsAhead l = 0%nat /\ onlyTrackedTimer (sys l) = true)
      \/ (startsAhead l = 1%nat /\ intervals (platform (sys l)) = ∅)).

(** A page with a poll in flight, and one whose [startMonitoring] has not
    settled yet. *)
Definition pollInFlight : Loop :=
  fst (turn (Fires 2) (mkLoop monitoringPage [])).

Definition startPending : Loop :=
  fst (turn (Calls CallStartMonitoring)
         (mkLoop (loaded PermDefault PermGranted [batch [4]]) [])).

(** A browser holding permission, whose server has one item and then a
    second one, and the page just loaded in it. *)
Definition newsBrowser : Platform :=
  browser PermGranted PermGranted [batch [4]; batch [4; 6]].

Definition newsLoop : Loop :=
  mkLoop (exec constructor_call (newPage newsBrowser)) [AwaitingStart (batch [4])].

(** * Properties *)

(** ** Running the monad *)

Lemma bind_normal_eq {A B} (m : M A) (f : A -> M B) s a s1 e1 :
  m s = (Normal a, s1, e1) ->
  (m ≫= f) s = (outcome (f a) s1, exec (f a) s1, e1 ++ effects (f a) s1).
Proof.
  intros H. unfold mbind, M_bind, outcome, exec, effects. rewrite H.
  by destruct (f a s1) as [[r s2] e2].
Qed.

Lemma bind_throw_eq {A B} (m : M A) (f : A -> M B) s x s1 e1 :
  m s = (Throw x, s1, e1) -> (m ≫= f) s = (Throw x, s1, e1).
Proof. intros H. unfold mbind, M_bind. by rewrite H. Qed.

Lemma run_eta {A} (m : M A) s : m s = (outcome m s, exec m s, effects m s).
Proof. unfold outcome, exec, effects. by destruct (m s) as [[r s1] e1]. Qed.

Lemma exec_bind {A B} (m : M A) (f : A -> M B) s a :
  outcome m s = Normal a -> exec (m ≫= f) s = exec (f a) (exec m s).
Proof.
  intros H. unfold exec at 1.
  rewrite (bind_normal_eq m f s a (exec m s) (effects m s)); [done|].
  by rewrite <- H, <- run_eta.
Qed.

Lemma effects_bind {A B} (m : M A) (f : A -> M B) s a :
  outcome m s = Normal a ->
  effects (m ≫= f) s = effects m s ++ effects (f a) (exec m s).
Proof.
  intros H. unfold effects at 1.
  rewrite (bind_normal_eq m f s a (exec m s) (effects m s)); [done|].
  by rewrite <- H, <- run_eta.
Qed.

Lemma outcome_bind {A B} (m : M A) (f : A -> M B) s a :
  outcome m s = Normal a -> outcome (m ≫= f) s = outcome (f a) (exec m s).
Proof.
  intros H. unfold outcome at 1.
  rewrite (bind_normal_eq m f s a (exec m s) (effects m s)); [done|].
  by rewrite <- H, <- run_eta.
Qed.

(** ** Combinators preserve the three shapes *)

Section Normal.
Context {A B : Type}.

Lemma normal_ret (a : A) : normal (mret a).
Proof. intros s. by exists a. Qed.

Lemma normal_bind (m : M A) (f : A -> M B) :
  normal m -> (forall a, normal (f a)) -> normal (m ≫= f).
Proof.
  intros Hm Hf s. destruct (Hm s) as [a Ha].
  rewrite (outcome_bind m f s a Ha). apply Hf.
Qed.

Lemma normal_try (m : M A) (h : JsError -> M A) :
  (forall e, normal (h e)) -> normal (try_catch m h).
Proof.
  intros Hh s. unfold outcome, try_catch.
  destruct (m s) as [[[a|x] s1] e1] eqn:E; simpl; [by exists a|].
  destruct (Hh x s1) as [a Ha]. unfold outcome in Ha.
  destruct (h x s1) as [[r s2] e2]. simpl in *. by exists a.
Qed.

End Normal.

Lemma normal_forEach {A} (l : list A) (f : A -> M unit) :
  (forall a, normal (f a)) -> normal (forEach l f).
Proof.
  intros Hf. induction l as [|x l IH]; simpl.
  - apply normal_ret.
  - apply normal_bind; [apply Hf | intros _; apply IH].
Qed.

Section Keeps.
Context (R : relation Sys) `{!PreOrder R}.

Lemma keeps_ret {A} (a : A) : keeps R (mret a).
Proof. by intros s. Qed.

Lemma keeps_throw {A} (e : JsError) : keeps R (@throw A e).
Proof. by intros s. Qed.

Lemma keeps_emit (e : Event) : keeps R (emit e).
Proof. by intros s. Qed.

Lemma keeps_getThis : keeps R getThis.
Proof. by intros s. Qed.

Lemma keeps_getPlatform : keeps R getPlatform.
Proof. by intros s. Qed.

Lemma keeps_bind {A B} (m : M A) (f : A -> M B) :
  keeps R m -> (forall a, keeps R (f a)) -> keeps R (m ≫= f).
Proof.
  intros Hm Hf s. specialize (Hm s). unfold exec, mbind, M_bind in *.
  destruct (m s) as [[[a|x] s1] e1]; simpl in *; [|done].
  specialize (Hf a s1). unfold exec in Hf.
  destruct (f a s1) as [[r s2] e2]. simpl in *. by etrans.
Qed.

Lemma keeps_try {A} (m : M A) (h : JsError -> M A) :
  keeps R m -> (forall e, keeps R (h e)) -> keeps R (try_catch m h).
Proof.
  intros Hm Hh s. specialize (Hm s). unfold exec, try_catch in *.
  destruct (m s) as [[[a|x] s1] e1]; simpl in *; [done|].
  specialize (Hh x s1). unfold exec in Hh.
  destruct (h x s1) as [[r s2] e2]. simpl in *. by etrans.
Qed.

Lemma keeps_forEach {A} (l : list A) (f : A -> M unit) :
  (forall a, keeps R (f a)) -> keeps R (forEach l f).
Proof.
  intros Hf. induction l as [|x l IH]; simpl.
  - apply keeps_ret.
  - apply keeps_bind; [apply Hf | intros _; apply IH].
Qed.

End Keeps.

Section Emits.
Variable P : Event -> bool.

Lemma emits_ret {A} (a : A) : emits P (mret a).
Proof. by intros s. Qed.

Lemma emits_throw {A} (e : JsError) : emits P (@throw A e).
Proof. by intros s. Qed.

Lemma emits_getThis : emits P getThis.
Proof. by intros s. Qed.

Lemma emits_getPlatform : emits P getPlatform.
Proof. by intros s. Qed.

Lemma emits_setThis (m : Manager) : emits P (setThis m).
Proof. by intros s. Qed.

Lemma emits_setPlatform (p : Platform) : emits P (setPlatform p).
Proof. by intros s. Qed.

Lemma emits_emit (e : Event) : P e = true -> emits P (emit e).
Proof. intros H s. simpl. by rewrite H. Qed.

Lemma emits_bind {A B} (m : M A) (f : A -> M B) :
  emits P m -> (forall a, emits P (f a)) -> emits P (m ≫= f).
Proof.
  intros Hm Hf s. specialize (Hm s). unfold effects, mbind, M_bind in *.
  destruct (m s) as [[[a|x] s1] e1]; simpl in *; [|done].
  specialize (Hf a s1). unfold effects in Hf.
  destruct (f a s1) as [[r s2] e2]. simpl in *.
  rewrite forallb_app. by rewrite Hm, Hf.
Qed.

Lemma emits_try {A} (m : M A) (h : JsError -> M A) :
  emits P m -> (forall e, emits P (h e)) -> emits P (try_catch m h).
Proof.
  intros Hm Hh s. specialize (Hm s). unfold effects, try_catch in *.
  destruct (m s) as [[[a|x] s1] e1]; simpl in *; [done|].
  specialize (Hh x s1). unfold effects in Hh.
  destruct (h x s1) as [[r s2] e2]. simpl in *.
  rewrite forallb_app. by rewrite Hm, Hh.
Qed.

Lemma emits_forEach {A} (l : list A) (f : A -> M unit) :
  (forall a, emits P (f a)) -> emits P (forEach l f).
Proof.
  intros Hf. induction l as [|x l IH]; simpl.
  - apply emits_ret.
  - apply emits_bind; [apply Hf | intros _; apply IH].
Qed.

End Emits.

Section Quiet.
Variable I : Sys -> Prop.
Variable P : Event -> bool.

Lemma quiet_bind {A B} (m : M A) (f : A -> M B) :
  quietUnder I P m -> (forall a, quietUnder I P (f a)) ->
  quietUnder I P (m ≫= f).
Proof.
  intros Hm Hf s Hs. destruct (Hm s Hs) as [H1 H2].
  unfold exec, effects, mbind, M_bind in *.
  destruct (m s) as [[[a|x] s1] e1]; simpl in *; [|done].
  destruct (Hf a s1 H1) as [H3 H4]. unfold exec, effects in *.
  destruct (f a s1) as [[r s2] e2]. simpl in *.
  split; [done|]. rewrite forallb_app. by rewrite H2, H4.
Qed.

Lemma quiet_try {A} (m : M A) (h : JsError -> M A) :
  quietUnder I P m -> (forall e, quietUnder I P (h e)) ->
  quietUnder I P (try_catch m h).
Proof.
  intros Hm Hh s Hs. destruct (Hm s Hs) as [H1 H2].
  unfold exec, effects, try_catch in *.
  destruct (m s) as [[[a|x] s1] e1]; simpl in *; [done|].
  destruct (Hh x s1 H1) as [H3 H4]. unfold exec, effects in *.
  destruct (h x s1) as [[r s2] e2]. simpl in *.
  split; [done|]. rewrite forallb_app. by rewrite H2, H4.
Qed.

Lemma quiet_forEach {A} (l : list A) (f : A -> M unit) :
  (forall a, quietUnder I P (f a)) -> quietUnder I P (forEach l f).
Proof.
  intros Hf. induction l as [|x l IH]; simpl.
  - by intros s Hs.
  - apply quiet_bind; [apply Hf | intros _; apply IH].
Qed.

End Quiet.

(** ** The frame relations are preorders *)

#[global] Instance sameThis_preorder : PreOrder sameThis.
Proof. split; unfold sameThis; [by intros s | intros s1 s2 s3; congruence]. Qed.

#[global] Instance samePermission_preorder : PreOrder samePermission.
Proof. split; unfold samePermission; [by intros s | intros s1 s2 s3; congruence]. Qed.

#[global] Instance sameCheckInterval_preorder : PreOrder sameCheckInterval.
Proof. split; unfold sameCheckInterval; [by intros s | intros s1 s2 s3; congruence]. Qed.

#[global] Instance sameIntervals_preorder : PreOrder sameIntervals.
Proof. split; unfold sameIntervals; [by intros s | intros s1 s2 s3; congruence]. Qed.

#[global] Instance sameFetches_preorder : PreOrder sameFetches.
Proof. split; unfold sameFetches; [by intros s | intros s1 s2 s3; congruence]. Qed.

#[global] Instance sameGateway_preorder : PreOrder sameGateway.
Proof. split; unfold sameGateway; [by intros s | intros s1 s2 s3; congruence]. Qed.

(** ** Shapes of the platform operations and of the methods *)

Create HintDb shape.

(** Unfolds the methods down to [showNotification]. *)
Ltac callers :=
  unfold step, requestPermission, constructor, init, triggerNotification,
    stopMonitoring, startMonitoring, startMonitoring_resume,
    startMonitoring_schedule, startMonitoring_call, checkForNewNotifications,
    checkForNewNotifications_resume, checkForNewNotifications_call,
    showPolled, showTestNotification, createNotificationSound,
    showPermissionPrompt, dismissPrompt, showSuccessMessage,
    showDeniedMessage, elapseInterval, fire.

(** Unfolds the methods down to the platform operations and field setters. *)
Ltac methods := callers; unfold showNotification, playSound.

(** Peels a computation one combinator at a time; straight-line code (a
    platform operation, a field setter) is settled by running it. *)
Ltac shape :=
  repeat first
    [ solve [eauto 2 with shape nocore]
    | solve [intros [? ?]; eexists; reflexivity]
    | solve [intros [? ?]; reflexivity]
    | apply normal_ret | apply normal_forEach; intros ?
    | apply normal_try; intros ? | apply normal_bind; [|intros ?]
    | apply keeps_forEach; [tc_solve|intros ?]
    | apply keeps_try; [tc_solve| |intros ?]
    | apply keeps_bind; [tc_solve| |intros ?]
    | apply emits_forEach; intros ? | apply emits_try; [|intros ?]
    | apply emits_bind; [|intros ?]
    | solve [intros [? ?] ?; split; [assumption | reflexivity]]
    | apply quiet_forEach; intros ? | apply quiet_try; [|intros ?]
    | apply quiet_bind; [|intros ?]
    | match goal with
      | |- normal (match ?x with _ => _ end) => destruct x
      | |- keeps _ (match ?x with _ => _ end) => destruct x
      | |- emits _ (match ?x with _ => _ end) => destruct x
      | |- quietUnder _ _ (match ?x with _ => _ end) => destruct x
      end ].

(** *** Every method completes normally *)

Lemma normal_elapse n : normal (elapse n).
Proof. induction n as [|n IH]; simpl; [|methods]; shape. Qed.
#[global] Hint Resolve normal_elapse : shape.

Lemma normal_step op : normal (step op).
Proof. destruct op; methods; shape. Qed.
#[global] Hint Resolve normal_step : shape.

Lemma normal_run ops : normal (run ops).
Proof. unfold run. shape. Qed.

Lemma normal_constructor : normal constructor.
Proof. methods. shape. Qed.

Lemma normal_checkForNewNotifications : normal checkForNewNotifications.
Proof. methods. shape. Qed.

Lemma normal_showNotification a : normal (showNotification a).
Proof. methods. shape. Qed.

Lemma normal_showPolled n : normal (showPolled n).
Proof. methods. shape. Qed.

(** *** No method writes [checkInterval] *)

Lemma checkInterval_elapse n : keeps sameCheckInterval (elapse n).
Proof. induction n as [|n IH]; simpl; [|methods]; shape. Qed.
#[global] Hint Resolve checkInterval_elapse : shape.

Lemma checkInterval_step op : keeps sameCheckInterval (step op).
Proof. destruct op; methods; shape. Qed.
#[global] Hint Resolve checkInterval_step : shape.

Lemma checkInterval_run ops : keeps sameCheckInterval (run ops).
Proof. unfold run. shape. Qed.

(** *** Only [requestPermission] and the constructor write [permission] *)


Lemma permission_elapse n : keeps samePermission (elapse n).
Proof. induction n as [|n IH]; simpl; [|methods]; shape. Qed.
#[global] Hint Resolve permission_elapse : shape.

Lemma permission_step op :
  isRequestPermission op = false -> keeps samePermission (step op).
Proof. destruct op; [done| | | | | |]; intros _; methods; shape. Qed.

Lemma permission_run ops :
  forallb (fun op => negb (isRequestPermission op)) ops = true ->
  keeps samePermission (run ops).
Proof.
  unfold run. induction ops as [|op ops IH]; simpl; intros H; [shape|].
  apply andb_true_iff in H as [H1 H2]. apply negb_true_iff in H1.
  apply keeps_bind; [tc_solve | by apply permission_step | intros _; by apply IH].
Qed.

(** *** Displaying touches neither the manager nor the polling timers *)

Lemma this_showNotification a : keeps sameThis (showNotification a).
Proof. methods. shape. Qed.

Lemma this_triggerNotification type title message jobId :
  keeps sameThis (triggerNotification type title message jobId).
Proof. methods. shape. Qed.

Lemma intervals_showNotification a : keeps sameIntervals (showNotification a).
Proof. methods. shape. Qed.

Lemma intervals_triggerNotification type title message jobId :
  keeps sameIntervals (triggerNotification type title message jobId).
Proof. methods. shape. Qed.

Lemma intervals_checkForNewNotifications :
  keeps sameIntervals checkForNewNotifications.
Proof. methods. shape. Qed.


Lemma fetches_showPolled n : keeps sameFetches (showPolled n).
Proof. methods. shape. Qed.

Lemma noFetch_showPolled n : emits (fun e => negb (isFetch e)) (showPolled n).
Proof. methods. shape. Qed.

Lemma noInterval_checkForNewNotifications :
  emits (fun e => negb (isIntervalEvent e)) checkForNewNotifications.
Proof. methods. shape. Qed.

(** ** One poll, step by step *)

Lemma exec_bind_case {A B} (m : M A) (f : A -> M B) s :
  exec (m ≫= f) s =
  match outcome m s with
  | Normal a => exec (f a) (exec m s)
  | Throw _ => exec m s
  end.
Proof.
  unfold exec, outcome, mbind, M_bind.
  destruct (m s) as [[[a|x] s1] e1]; simpl; [|done].
  by destruct (f a s1) as [[r s2] e2].
Qed.

Lemma exec_try_case {A} (m : M A) (h : JsError -> M A) s :
  exec (try_catch m h) s =
  match outcome m s with
  | Normal _ => exec m s
  | Throw x => exec (h x) (exec m s)
  end.
Proof.
  unfold exec, outcome, try_catch.
  destruct (m s) as [[[a|x] s1] e1]; simpl; [done|].
  by destruct (h x s1) as [[r s2] e2].
Qed.

Lemma call_eq s :
  checkForNewNotifications_call s =
  (Normal (nextOutcome s), exec checkForNewNotifications_call s, [Fetch endpoint]).
Proof. by destruct s as [m p]. Qed.

Lemma call_this s : this (exec checkForNewNotifications_call s) = this s.
Proof. by destruct s as [m p]. Qed.

Lemma call_fetches s :
  fetches (platform (exec checkForNewNotifications_call s))
  = S (fetches (platform s)).
Proof. by destruct s as [m p]. Qed.

Lemma call_gateway s :
  gateway (platform (exec checkForNewNotifications_call s))
  = gateway (platform s).
Proof. by destruct s as [m p]. Qed.

Lemma call_intervals s :
  intervals (platform (exec checkForNewNotifications_call s))
  = intervals (platform s).
Proof. by destruct s as [m p]. Qed.

Lemma check_eq s :
  checkForNewNotifications s =
  (outcome (checkForNewNotifications_resume (nextOutcome s))
     (exec checkForNewNotifications_call s),
   exec (checkForNewNotifications_resume (nextOutcome s))
     (exec checkForNewNotifications_call s),
   Fetch endpoint
     :: effects (checkForNewNotifications_resume (nextOutcome s))
          (exec checkForNewNotifications_call s)).
Proof.
  unfold checkForNewNotifications.
  by rewrite (bind_normal_eq _ _ _ _ _ _ (call_eq s)).
Qed.

(** A failing poll: nothing but the [catch]'s log, and that only when
    something was thrown. *)
Lemma resume_fails o s :
  pollFails o = true ->
  checkForNewNotifications_resume o s =
  (Normal tt, s,
   match thrownBy o with
   | Some e => [ConsoleError "Error checking notifications:" e]
   | None => []
   end).
Proof.
  destruct s as [m p].
  destruct o as [| | |[[|] [ns|]]]; simpl; intros H; try discriminate;
    reflexivity.
Qed.

Lemma loop_this ns s : this (exec (forEach ns showPolled) s) = this s.
Proof.
  assert (keeps sameThis (forEach ns showPolled)) as H; [|apply H].
  methods. shape.
Qed.

Lemma loop_normal ns s : outcome (forEach ns showPolled) s = Normal tt.
Proof.
  destruct (normal_forEach ns showPolled normal_showPolled s) as [[] H]. done.
Qed.

(** A successful poll: the loop, then the Watermark update. *)
Lemma resume_succeeds ns s :
  checkForNewNotifications_resume (Json (Response.mk true (Some ns))) s =
  (Normal tt,
   mkSys (withWatermark
            (watermarkAfter (Json (Response.mk true (Some ns)))
               (lastNotificationId (this s)))
            (this s))
     (platform (exec (forEach ns showPolled) s)),
   effects (forEach ns showPolled) s).
Proof.
  pose proof (loop_normal ns s) as Hn. pose proof (loop_this ns s) as Ht.
  unfold checkForNewNotifications_resume, try_catch, outcome, exec,
    effects in *.
  unfold mbind at 1, M_bind at 1. unfold mret at 1, M_ret at 1.
  cbn [negb Response.success Response.notifications].
  unfold mbind at 1, M_bind at 1.
  destruct (forEach ns showPolled s) as [[r [m1 p1]] e1]. simpl in Hn, Ht.
  subst r m1. destruct s as [m p]. simpl.
  destruct ns as [|n ns]; simpl; rewrite app_nil_r; [|done].
  by destruct m.
Qed.

(** ** Display *)

Lemma showNotification_refused a s :
  notGranted s ->
  showNotification a s =
  (Normal None, s,
   [ConsoleLog "⊘ Cannot show notification - permission not granted"]).
Proof.
  destruct s as [[perm ci last sound mi] p]. unfold notGranted. simpl.
  intros H. unfold showNotification, getThis, mbind, M_bind. simpl.
  by rewrite H.
Qed.

Lemma quiet_showNotification a :
  quietUnder notGranted (fun e => negb (isDisplay e)) (showNotification a).
Proof.
  intros s H. unfold exec, effects. by rewrite showNotification_refused.
Qed.
#[global] Hint Resolve quiet_showNotification : shape.

Lemma quiet_elapse n :
  quietUnder notGranted (fun e => negb (isDisplay e)) (elapse n).
Proof.
  induction n as [|n IH]; simpl; [by intros s Hs|]. callers. shape.
Qed.
#[global] Hint Resolve quiet_elapse : shape.

Lemma quiet_step op :
  isRequestPermission op = false ->
  quietUnder notGranted (fun e => negb (isDisplay e)) (step op).
Proof. destruct op; [done| | | | | |]; intros _; callers; shape. Qed.

Lemma quiet_run ops :
  forallb (fun op => negb (isRequestPermission op)) ops = true ->
  quietUnder notGranted (fun e => negb (isDisplay e)) (run ops).
Proof.
  unfold run. induction ops as [|op ops IH]; simpl; intros H; [by intros s Hs|].
  apply andb_true_iff in H as [H1 H2]. apply negb_true_iff in H1.
  apply quiet_bind; [by apply quiet_step | intros _; by apply IH].
Qed.

Lemma filter_none {A} (P : A -> bool) (l : list A) :
  forallb (fun x => negb (P x)) l = true -> List.filter P l = [].
Proof.
  induction l as [|x l IH]; simpl; [done|].
  destruct (P x); simpl; [done|]. apply IH.
Qed.

(** C3.  When [this.permission] is anything other than ['granted'],
    [showNotification] returns at its guard: it yields [undefined], leaves
    manager and platform as they were and only logs, so no [Notification]
    is constructed and no sound is played.  Hence a poll displays nothing
    whatever the gateway answers, and neither does any sequence of calls
    that does not ask for the permission again. *)
Theorem no_display_without_permission (s : Sys) (a : Args.t) :
  notGranted s ->
  showNotification a s =
    (Normal None, s,
     [ConsoleLog "⊘ Cannot show notification - permission not granted"])
  /\ List.filter isDisplay (effects checkForNewNotifications s) = []
  /\ (forall ops,
        forallb (fun op => negb (isRequestPermission op)) ops = true ->
        List.filter isDisplay (effects (run ops) s) = []).
Proof.
  intros H. split; [by apply showNotification_refused|]. split.
  - apply filter_none.
    apply (quiet_step OpCheckForNewNotifications eq_refl s H).
  - intros ops Hops. apply filter_none. by apply (quiet_run ops Hops s H).
Qed.

Lemma no_display_without_permission_witness :
  notGranted blockedPage
  /\ (showNotification
        (Args.mk "Deadline" "Apply today" (JsString bell) None None)
        blockedPage =
      (Normal None, blockedPage,
       [ConsoleLog "⊘ Cannot show notification - permission not granted"])
      /\ List.filter isDisplay (effects checkForNewNotifications blockedPage)
         = []
      /\ (forall ops,
            forallb (fun op => negb (isRequestPermission op)) ops = true ->
            List.filter isDisplay (effects (run ops) blockedPage) = [])).
Proof.
  split; [reflexivity|].
  apply (no_display_without_permission blockedPage
           (Args.mk "Deadline" "Apply today" (JsString bell) None None)).
  reflexivity.
Defined.

(** C8.  [triggerNotification] mutates no state: whatever the category,
    title, body and job id, the manager's fields (permission, Watermark,
    polling timer handle and the rest of [this]) and the table of interval
    timers are as before, and no request is sent to the gateway. *)
Theorem triggerNotification_mutates_nothing (s : Sys)
    (type title message : string) (jobId : option Z) :
  let s' := exec (triggerNotification type title message jobId) s in
  permission (this s') = permission (this s)
  /\ lastNotificationId (this s') = lastNotificationId (this s)
  /\ monitoringInterval (this s') = monitoringInterval (this s)
  /\ this s' = this s
  /\ intervals (platform s') = intervals (platform s)
  /\ fetches (platform s') = fetches (platform s).
Proof.
  intros s'. subst s'.
  pose proof (this_triggerNotification type title message jobId s) as Ht.
  pose proof (intervals_triggerNotification type title message jobId s) as Hi.
  assert (keeps sameFetches (triggerNotification type title message jobId))
    as Hf by (methods; shape).
  specialize (Hf s). unfold sameThis, sameIntervals, sameFetches in *.
  rewrite Ht. by repeat split.
Qed.

(** ** Who writes [permission] *)

Lemma constructor_reads_permission s :
  permission (this (exec constructor s)) = browserPermission (platform s).
Proof.
  unfold constructor. rewrite exec_bind_case. simpl.
  rewrite exec_bind_case. simpl.
  assert (keeps samePermission init) as H by (methods; shape).
  by rewrite H.
Qed.

Lemma requestPermission_stores_answer s answer :
  promptAnswer (platform s) = Some answer ->
  permission (this (exec requestPermission s)) = answer.
Proof.
  intros Ha. unfold requestPermission. rewrite exec_bind_case.
  match goal with
  | |- context [exec (try_catch ?b ?h) s] => set (body := b); set (handler := h)
  end.
  assert (permission (this (exec (try_catch body handler) s)) = answer) as Ht.
  { rewrite exec_try_case.
    assert (permission (this (exec body s)) = answer) as Hb.
    { subst body. rewrite exec_bind_case.
      assert (Notification_requestPermission s
              = (Normal answer, exec Notification_requestPermission s, []))
        as Hn.
      { destruct s as [m p]. simpl in Ha.
        unfold Notification_requestPermission, exec, getPlatform, mbind,
          M_bind. simpl. by rewrite Ha. }
      unfold outcome at 1. rewrite Hn. simpl.
      rewrite exec_bind_case. simpl.
      match goal with
      | |- permission (this (exec ?rest ?s1)) = _ =>
          assert (keeps samePermission rest) as Hk
      end.
      { destruct (permission_eqb answer PermGranted); callers; shape. }
      rewrite Hk. by destruct (exec Notification_requestPermission s). }
    destruct (outcome body s); [done|].
    assert (keeps samePermission (handler e)) as Hh by (subst handler; shape).
    by rewrite Hh. }
  destruct (outcome (try_catch body handler) s) as [pending|]; [|done].
  match goal with
  | |- permission (this (exec ?k _)) = _ =>
      assert (keeps samePermission k) as Hk by (callers; shape)
  end.
  by rewrite Hk.
Qed.

(** C10.  [permission] is written by the constructor, from the browser's
    current value, and by [requestPermission], from the user's answer, and
    by nothing else: any sequence of polls, displays, manual triggers,
    starts, stops and timer firings leaves it as it was. *)
Theorem permission_written_only_at_construction_and_request (s : Sys)
    (ops : list Op) :
  forallb (fun op => negb (isRequestPermission op)) ops = true ->
  permission (this (exec (run ops) s)) = permission (this s)
  /\ permission (this (exec checkForNewNotifications s)) = permission (this s)
  /\ (forall a, permission (this (exec (showNotification a) s))
                = permission (this s))
  /\ permission (this (exec startMonitoring s)) = permission (this s)
  /\ permission (this (exec stopMonitoring s)) = permission (this s)
  /\ (forall type title message jobId,
        permission (this (exec (triggerNotification type title message jobId) s))
        = permission (this s))
  /\ permission (this (exec constructor s)) = browserPermission (platform s)
  /\ (forall answer, promptAnswer (platform s) = Some answer ->
        permission (this (exec requestPermission s)) = answer).
Proof.
  intros Hops. split; [by apply (permission_run ops Hops s)|].
  split; [apply (permission_step OpCheckForNewNotifications eq_refl s)|].
  split.
  { intros a. by rewrite (this_showNotification a s). }
  split; [apply (permission_step OpStartMonitoring eq_refl s)|].
  split; [apply (permission_step OpStopMonitoring eq_refl s)|].
  split.
  { intros type title message jobId.
    by rewrite (this_triggerNotification type title message jobId s). }
  split; [apply constructor_reads_permission|].
  apply requestPermission_stores_answer.
Qed.

Lemma permission_written_only_at_construction_and_request_witness :
  forallb (fun op => negb (isRequestPermission op)) afterLoad = true
  /\ (permission (this (exec (run afterLoad) monitoringPage))
      = permission (this monitoringPage)
      /\ permission (this (exec checkForNewNotifications monitoringPage))
         = permission (this monitoringPage)
      /\ (forall a, permission (this (exec (showNotification a) monitoringPage))
                    = permission (this monitoringPage))
      /\ permission (this (exec startMonitoring monitoringPage))
         = permission (this monitoringPage)
      /\ permission (this (exec stopMonitoring monitoringPage))
         = permission (this monitoringPage)
      /\ (forall type title message jobId,
            permission
              (this (exec (triggerNotification type title message jobId)
                       monitoringPage))
            = permission (this monitoringPage))
      /\ permission (this (exec constructor monitoringPage))
         = browserPermission (platform monitoringPage)
      /\ (forall answer,
            promptAnswer (platform monitoringPage) = Some answer ->
            permission (this (exec requestPermission monitoringPage)) = answer)).
Proof.
  split; [reflexivity|].
  apply (permission_written_only_at_construction_and_request monitoringPage
           afterLoad).
  reflexivity.
Defined.

(** ** Failing polls *)

Lemma fails_empty_batch o : pollFails o = true -> batchOf o = [].
Proof. by destruct o as [| | |[[|] [ns|]]]. Qed.

Lemma succeeds_shape o :
  pollFails o = false -> exists ns, o = Json (Response.mk true (Some ns)).
Proof. destruct o as [| | |[[|] [ns|]]]; try done. by exists ns. Qed.

Lemma withWatermark_same m : withWatermark (lastNotificationId m) m = m.
Proof. by destruct m. Qed.

(** What a poll does to the manager: the Watermark becomes
    [watermarkAfter], nothing else changes. *)
Lemma check_this s :
  this (exec checkForNewNotifications s) =
  withWatermark
    (watermarkAfter (nextOutcome s) (lastNotificationId (this s))) (this s).
Proof.
  unfold exec at 1. rewrite check_eq. cbn [fst snd].
  destruct (pollFails (nextOutcome s)) eqn:E.
  - unfold exec at 1. rewrite (resume_fails _ _ E). cbn [fst snd].
    unfold watermarkAfter. rewrite (fails_empty_batch _ E), call_this.
    by rewrite withWatermark_same.
  - destruct (succeeds_shape _ E) as [ns ->].
    unfold exec at 1. rewrite resume_succeeds. cbn [fst snd this].
    by rewrite call_this.
Qed.

(** C4, as the code has it.  A poll fails when the request or the body
    parse rejects, the body is [null] or lacks the [notifications] array
    (each throws into the [catch], which logs the error), or the body says
    [success:false] (the early [return]: nothing is logged).  In every case
    the manager and the interval timers are exactly as before and the tick
    performed its one request and nothing else: no retry, no rescheduling. *)
Theorem failed_poll_changes_nothing (s : Sys) :
  pollFails (nextOutcome s) = true ->
  this (exec checkForNewNotifications s) = this s
  /\ intervals (platform (exec checkForNewNotifications s))
     = intervals (platform s)
  /\ effects checkForNewNotifications s =
     Fetch endpoint
       :: match thrownBy (nextOutcome s) with
          | Some e => [ConsoleError "Error checking notifications:" e]
          | None => []
          end.
Proof.
  intros E. split; [|split].
  - rewrite check_this. unfold watermarkAfter.
    by rewrite (fails_empty_batch _ E), withWatermark_same.
  - apply intervals_checkForNewNotifications.
  - unfold effects at 1. rewrite check_eq. cbn [snd].
    unfold effects. by rewrite (resume_fails _ _ E).
Qed.

Lemma failed_poll_changes_nothing_witness :
  pollFails (nextOutcome brokenPoll) = true
  /\ (this (exec checkForNewNotifications brokenPoll) = this brokenPoll
      /\ intervals (platform (exec checkForNewNotifications brokenPoll))
         = intervals (platform brokenPoll)
      /\ effects checkForNewNotifications brokenPoll =
         Fetch endpoint
           :: match thrownBy (nextOutcome brokenPoll) with
              | Some e => [ConsoleError "Error checking notifications:" e]
              | None => []
              end).
Proof.
  split; [reflexivity|].
  apply (failed_poll_changes_nothing brokenPoll). reflexivity.
Defined.

(** C4, as stated, fails: a [success:false] answer is a failed poll and is
    not logged, whereas a transport failure is; the two are not treated
    identically. *)
Lemma success_false_is_not_logged :
  pollFails (nextOutcome refusedPoll) = true
  /\ effects checkForNewNotifications refusedPoll = [Fetch endpoint]
  /\ List.filter isConsoleError (effects checkForNewNotifications refusedPoll)
     = []
  /\ effects checkForNewNotifications brokenPoll =
     [Fetch endpoint;
      ConsoleError "Error checking notifications:" NetworkError].
Proof. vm_compute. by repeat split. Qed.

(** ** Stopping *)

Lemma elapseInterval_idle s :
  intervals (platform s) = ∅ -> elapseInterval s = (Normal tt, s, []).
Proof.
  destruct s as [m p]. simpl. intros H.
  unfold elapseInterval, getPlatform, mbind, M_bind. simpl.
  by rewrite H, map_to_list_empty.
Qed.

Lemma elapse_idle n s :
  intervals (platform s) = ∅ -> elapse n s = (Normal tt, s, []).
Proof.
  intros H. induction n as [|n IH]; simpl; [done|].
  rewrite (bind_normal_eq _ _ _ _ _ _ (elapseInterval_idle s H)).
  unfold outcome, exec, effects. by rewrite IH.
Qed.

Lemma stopMonitoring_clears_tracked s :
  onlyTrackedTimer s = true ->
  intervals (platform (exec stopMonitoring s)) = ∅.
Proof.
  destruct s as [[perm ci last sound [id|]] p]; unfold onlyTrackedTimer;
    simpl; intros H.
  - apply map_empty. intros i. destruct (decide (i = id)) as [->|Hne].
    + apply lookup_delete_eq.
    + rewrite lookup_delete_ne by done.
      destruct (intervals p !! i) as [t|] eqn:E; [|done].
      apply elem_of_map_to_list, list_elem_of_In in E.
      rewrite forallb_forall in H. specialize (H _ E). simpl in H.
      by apply Pos.eqb_eq in H.
  - apply map_to_list_empty_iff.
    destruct (map_to_list (intervals p)); [done|discriminate].
Qed.

Lemma stopMonitoring_fetches s :
  fetches (platform (exec stopMonitoring s)) = fetches (platform s).
Proof. by destruct s as [[perm ci last sound [id|]] p]. Qed.



(** ** Starting *)

Lemma constructor_checkInterval s :
  checkInterval (this (exec constructor s)) = 30000.
Proof.
  unfold constructor. rewrite exec_bind_case. simpl.
  rewrite exec_bind_case. simpl.
  assert (keeps sameCheckInterval init) as H by (methods; shape).
  by rewrite H.
Qed.

Lemma built_checkInterval s0 ops :
  checkInterval (this (exec (constructor;; run ops) s0)) = 30000.
Proof.
  destruct (normal_constructor s0) as [[] Hn].
  rewrite (exec_bind _ _ _ _ Hn), (checkInterval_run ops).
  apply constructor_checkInterval.
Qed.

Lemma startMonitoring_call_eq s :
  startMonitoring_call s =
  (Normal (nextOutcome s), exec checkForNewNotifications_call s,
   [ConsoleLog "🔄 Starting notification monitoring..."; Fetch endpoint]).
Proof. by destruct s as [m p]. Qed.

Lemma schedule_eq s :
  startMonitoring_schedule s =
  (Normal tt, exec startMonitoring_schedule s,
   [SetInterval (nextTimerId (platform s)) CbCheckForNewNotifications
      (checkInterval (this s));
    ConsoleLog ("✅ Monitoring every "
                ++ string_of_Z (checkInterval (this s) / 1000)
                ++ " seconds")%string]).
Proof. by destruct s as [m p]. Qed.

Lemma schedule_intervals s :
  intervals (platform (exec startMonitoring_schedule s)) =
  <[nextTimerId (platform s) :=
      (CbCheckForNewNotifications, checkInterval (this s))]>
    (intervals (platform s)).
Proof. by destruct s as [m p]. Qed.

Lemma schedule_handle s :
  monitoringInterval (this (exec startMonitoring_schedule s))
  = Some (nextTimerId (platform s)).
Proof. by destruct s as [m p]. Qed.

Lemma resume_outcome o s :
  outcome (checkForNewNotifications_resume o) s = Normal tt.
Proof.
  assert (normal (checkForNewNotifications_resume o)) as H
    by (methods; shape).
  by destruct (H s) as [[] ->].
Qed.

Lemma fetchCount_app evs1 evs2 :
  fetchCount (evs1 ++ evs2) = (fetchCount evs1 + fetchCount evs2)%nat.
Proof. unfold fetchCount. by rewrite List.filter_app, length_app. Qed.

(** A firing timer whose callback polls sends one request at least. *)
Lemma forEach_fetches {A} (f : A -> M unit) (x : A) (l : list A) :
  (forall a, normal (f a)) ->
  (forall s, (1 <= fetchCount (effects (f x) s))%nat) ->
  In x l ->
  forall s, (1 <= fetchCount (effects (forEach l f) s))%nat.
Proof.
  intros Hn Hx. induction l as [|y l IH]; simpl; [done|].
  intros [->|Hin] s; destruct (Hn y s) as [[] Ho] || destruct (Hn x s) as [[] Ho];
    rewrite (effects_bind _ _ _ _ Ho), fetchCount_app.
  - specialize (Hx s). lia.
  - specialize (IH Hin (exec (f y) s)). lia.
Qed.

Lemma elapseInterval_fetches s id ms :
  intervals (platform s) !! id = Some (CbCheckForNewNotifications, ms) ->
  (1 <= fetchCount (effects elapseInterval s))%nat.
Proof.
  intros H. apply elem_of_map_to_list, list_elem_of_In in H.
  destruct s as [m p]. simpl in H.
  unfold elapseInterval.
  rewrite (effects_bind getPlatform _ (mkSys m p) p eq_refl). simpl.
  apply (forEach_fetches _ (id, (CbCheckForNewNotifications, ms)));
    [intros [i [cb d]]; methods; shape | | exact H].
  intros s. simpl. unfold effects. rewrite check_eq.
  unfold fetchCount. simpl. lia.
Qed.

Lemma intervals_elapseInterval : keeps sameIntervals elapseInterval.
Proof. methods. shape. Qed.

Lemma elapse_fetches n : forall s id ms,
  intervals (platform s) !! id = Some (CbCheckForNewNotifications, ms) ->
  (n <= fetchCount (effects (elapse n) s))%nat.
Proof.
  induction n as [|n IH]; intros s id ms H; simpl; [lia|].
  assert (outcome elapseInterval s = Normal tt) as Ho.
  { assert (normal elapseInterval) as Hn by (methods; shape).
    by destruct (Hn s) as [[] ->]. }
  rewrite (effects_bind _ _ _ _ Ho), fetchCount_app.
  pose proof (elapseInterval_fetches s id ms H) as H1.
  specialize (IH (exec elapseInterval s) id ms).
  rewrite intervals_elapseInterval in IH. specialize (IH H). lia.
Qed.

(** [startMonitoring] in one equation: the request, the handling of its
    answer, the timer. *)
Lemma startMonitoring_eq s :
  let s1 := exec checkForNewNotifications_call s in
  let o := nextOutcome s in
  let s2 := exec (checkForNewNotifications_resume o) s1 in
  startMonitoring s =
  (Normal tt, exec startMonitoring_schedule s2,
   [ConsoleLog "🔄 Starting notification monitoring..."; Fetch endpoint]
   ++ effects (checkForNewNotifications_resume o) s1
   ++ [SetInterval (nextTimerId (platform s2)) CbCheckForNewNotifications
         (checkInterval (this s2));
       ConsoleLog ("✅ Monitoring every "
                   ++ string_of_Z (checkInterval (this s2) / 1000)
                   ++ " seconds")%string]).
Proof.
  intros s1 o s2. unfold startMonitoring.
  rewrite (bind_normal_eq _ _ _ _ _ _ (startMonitoring_call_eq s)).
  fold s1 o. unfold startMonitoring_resume.
  rewrite (outcome_bind _ _ _ _ (resume_outcome o s1)),
    (exec_bind _ _ _ _ (resume_outcome o s1)),
    (effects_bind _ _ _ _ (resume_outcome o s1)).
  fold s2. unfold outcome, exec at 1, effects at 2.
  by rewrite (schedule_eq s2).
Qed.

(** Started on a page without a running timer, [startMonitoring] leaves
    exactly one, the one it records. *)
Lemma startMonitoring_tracks_its_timer s :
  intervals (platform s) = ∅ -> onlyTrackedTimer (exec startMonitoring s) = true.
Proof.
  intros He. unfold exec at 1. rewrite startMonitoring_eq. cbn [fst snd].
  set (s2 := exec (checkForNewNotifications_resume (nextOutcome s))
               (exec checkForNewNotifications_call s)).
  assert (intervals (platform s2) = ∅) as He2.
  { subst s2.
    assert (keeps sameIntervals
              (checkForNewNotifications_resume (nextOutcome s))) as Hk
      by (methods; shape).
    by rewrite Hk, call_intervals. }
  unfold onlyTrackedTimer.
  rewrite schedule_handle, schedule_intervals, He2, insert_empty,
    map_to_list_singleton.
  simpl. by rewrite Pos.eqb_refl.
Qed.

(** C6.  On a manager built by the constructor, whatever was called on it
    since, [startMonitoring] first sends one request to the gateway, before
    any timer exists, and handles its answer; only then does it register
    one interval timer, with the poll as callback and a delay of 30000 ms,
    and record its id.  No other request and no other interval call occurs
    in between, and from then on every elapsed period sends a request. *)
Theorem startMonitoring_fetches_then_schedules (s0 : Sys) (ops : list Op) :
  let s := exec (constructor;; run ops) s0 in
  let s' := exec startMonitoring s in
  exists handling id,
    effects startMonitoring s =
      ConsoleLog "🔄 Starting notification monitoring..."
        :: Fetch endpoint
        :: handling
        ++ [SetInterval id CbCheckForNewNotifications 30000;
            ConsoleLog "✅ Monitoring every 30 seconds"]
    /\ forallb (fun e => negb (isFetch e)) handling = true
    /\ forallb (fun e => negb (isIntervalEvent e)) handling = true
    /\ intervals (platform s') !! id = Some (CbCheckForNewNotifications, 30000)
    /\ monitoringInterval (this s') = Some id
    /\ forall periods, (periods <= fetchCount (effects (elapse periods) s'))%nat.
Proof.
  intros s s'.
  pose proof (built_checkInterval s0 ops) as Hci. fold s in Hci.
  pose proof (startMonitoring_eq s) as Heq. cbv zeta in Heq.
  set (s1 := exec checkForNewNotifications_call s) in *.
  set (o := nextOutcome s) in *.
  set (s2 := exec (checkForNewNotifications_resume o) s1) in *.
  assert (checkInterval (this s2) = 30000) as Hci2.
  { subst s2.
    assert (keeps sameCheckInterval (checkForNewNotifications_resume o)) as Hk
      by (methods; shape).
    rewrite Hk. subst s1. by rewrite call_this. }
  rewrite Hci2 in Heq.
  exists (effects (checkForNewNotifications_resume o) s1),
    (nextTimerId (platform s2)).
  assert (s' = exec startMonitoring_schedule s2) as Hs'.
  { subst s'. unfold exec at 1. by rewrite Heq. }
  split; [unfold effects at 1; by rewrite Heq|].
  split.
  { assert (emits (fun e => negb (isFetch e))
              (checkForNewNotifications_resume o)) as He by (methods; shape).
    apply He. }
  split.
  { assert (emits (fun e => negb (isIntervalEvent e))
              (checkForNewNotifications_resume o)) as He by (methods; shape).
    apply He. }
  assert (intervals (platform s') !! nextTimerId (platform s2)
          = Some (CbCheckForNewNotifications, 30000)) as Hi.
  { rewrite Hs', schedule_intervals, Hci2. apply lookup_insert_eq. }
  split; [done|]. split; [by rewrite Hs', schedule_handle|].
  intros periods. by apply (elapse_fetches periods s' _ _ Hi).
Qed.

(** ** What a poll displays *)

Lemma showPolled_displayed n s :
  permission (this s) = PermGranted ->
  displayedIds (effects (showPolled n) s) =
  if alreadyShown (lastNotificationId (this s)) (Notif.notification_id n)
  then [] else [Notif.notification_id n].
Proof.
  destruct s as [[perm ci last sound mi] p]. simpl. intros ->.
  unfold effects, showPolled, showNotification, playSound, getThis, mbind,
    M_bind. simpl.
  destruct (alreadyShown last (Notif.notification_id n)); [done|].
  by destruct sound.
Qed.

Lemma showPolled_this n s : this (exec (showPolled n) s) = this s.
Proof.
  assert (keeps sameThis (showPolled n)) as H by (methods; shape). apply H.
Qed.

Lemma showPolled_outcome n s : outcome (showPolled n) s = Normal tt.
Proof. by destruct (normal_showPolled n s) as [[] ->]. Qed.

Lemma loop_displayed ns : forall s,
  permission (this s) = PermGranted ->
  displayedIds (effects (forEach ns showPolled) s)
  = passing (lastNotificationId (this s)) ns.
Proof.
  induction ns as [|n ns IH]; intros s Hg; [done|]. simpl.
  rewrite (effects_bind _ _ _ _ (showPolled_outcome n s)).
  unfold displayedIds in *. rewrite omap_app.
  fold (displayedIds (effects (showPolled n) s)).
  rewrite (showPolled_displayed n s Hg), IH, showPolled_this;
    [|by rewrite showPolled_this].
  unfold passing. simpl.
  by destruct (alreadyShown (lastNotificationId (this s))
                 (Notif.notification_id n)).
Qed.



(** The ids displayed by one poll under granted permission. *)
Lemma check_displayed s :
  permission (this s) = PermGranted ->
  displayedIds (effects checkForNewNotifications s)
  = passing (lastNotificationId (this s)) (batchOf (nextOutcome s)).
Proof.
  intros Hg. unfold effects at 1. rewrite check_eq. cbn [snd].
  change (displayedIds (Fetch endpoint :: ?l)) with (displayedIds l).
  destruct (pollFails (nextOutcome s)) eqn:E.
  - unfold effects. rewrite (resume_fails _ _ E). cbn [snd].
    rewrite (fails_empty_batch _ E). by destruct (thrownBy (nextOutcome s)).
  - destruct (succeeds_shape _ E) as [ns ->].
    unfold effects at 1. rewrite resume_succeeds. cbn [snd].
    rewrite loop_displayed, call_this; [done|by rewrite call_this].
Qed.

Lemma check_fetches s :
  fetches (platform (exec checkForNewNotifications s))
  = S (fetches (platform s)).
Proof.
  unfold exec at 1. rewrite check_eq. cbn [fst snd].
  assert (keeps sameFetches
            (checkForNewNotifications_resume (nextOutcome s))) as H
    by (methods; shape).
  rewrite H. apply call_fetches.
Qed.

Lemma check_outcome s : outcome checkForNewNotifications s = Normal tt.
Proof. by destruct (normal_checkForNewNotifications s) as [[] ->]. Qed.







(** ** The Watermark across ticks *)

Lemma Math_max_ge x xs : x <= Math_max x xs.
Proof.
  unfold Math_max. revert x. induction xs as [|y xs IH]; intros x; simpl; [lia|].
  specialize (IH (Z.max x y)). lia.
Qed.

Lemma Math_max_upper x xs y : In y (x :: xs) -> y <= Math_max x xs.
Proof.
  unfold Math_max. revert x. induction xs as [|z xs IH]; intros x; simpl.
  - intros [->|[]]. lia.
  - intros [->|[->|H]].
    + pose proof (Math_max_ge (Z.max y z) xs) as H. unfold Math_max in H. lia.
    + pose proof (Math_max_ge (Z.max x y) xs) as H. unfold Math_max in H. lia.
    + apply IH. simpl. by right.
Qed.

(** A tick that displays something under a set, non-zero Watermark raises
    the Watermark strictly, and everything it displays lies above the old
    one. *)
Lemma displaying_tick_raises_watermark s w id :
  permission (this s) = PermGranted ->
  lastNotificationId (this s) = Some w -> w <> 0 ->
  In id (displayedIds (effects checkForNewNotifications s)) ->
  w < id
  /\ exists w', lastNotificationId (this (exec checkForNewNotifications s))
                = Some w' /\ id <= w'.
Proof.
  intros Hg Hw Hnz Hin. rewrite (check_displayed s Hg), Hw in Hin.
  rewrite check_this, Hw. unfold passing in Hin.
  apply in_map_iff in Hin as (n & <- & Hn).
  apply List.filter_In in Hn as [Hn Hpass].
  unfold watermarkAfter. simpl.
  destruct (batchOf (nextOutcome s)) as [|n1 ns]; [done|]. split.
  - simpl in Hpass. apply negb_true_iff, andb_false_iff in Hpass.
    destruct Hpass as [H|H]; [apply negb_false_iff in H; lia|lia].
  - eexists. split; [done|].
    apply Math_max_upper. change (In (Notif.notification_id n)
      (map Notif.notification_id (n1 :: ns))). by apply in_map.
Qed.

(** C1 fails on the code: the Watermark is overwritten with the maximum of
    the last non-empty batch alone.  After the batch [5] it is 5; after the
    next batch, [3], it is 3. *)
Theorem watermark_drops_to_a_lower_batch :
  lastNotificationId (this (exec constructor reappearing)) = Some 5
  /\ lastNotificationId
       (this (exec checkForNewNotifications (exec constructor reappearing)))
     = Some 3
  /\ displayedIds
       (effects checkForNewNotifications (exec constructor reappearing)) = [].
Proof. vm_compute. by repeat split. Qed.

(** C2 fails on the code: with batches [5], [3], [5] the item 5 is
    displayed on the first tick, the Watermark falls to 3 on the second,
    and the same item is displayed again on the third. *)
Theorem reappearing_item_is_displayed_twice :
  displayedIds (effects constructor reappearing) = [5]
  /\ displayedIds (effects (ticks 1) (exec constructor reappearing)) = []
  /\ displayedIds
       (effects checkForNewNotifications
          (exec (constructor;; ticks 1) reappearing)) = [5]
  /\ displayedIds (effects (constructor;; ticks 2) reappearing) = [5; 5].
Proof. vm_compute. by repeat split. Qed.

(** ** Icons *)

(** Every glyph the poll can choose is rasterised by [emojiToDataURL]. *)
Lemma polled_icon_is_rasterised type title body tag data :
  Options.icon
    (optionsFor (Args.mk title body (JsString (iconForType type)) tag data))
  = IconDataURL (JsString (iconForType type)).
Proof.
  unfold iconForType.
  destruct (String.eqb type "critical"); [done|].
  destruct (String.eqb type "urgent"); [done|].
  by destruct (String.eqb type "new_job").
Qed.

(** A polled item that passes the already-seen test is displayed with
    the glyph chosen from its type, and a manual trigger with the glyph (or
    inherited member) found for its category. *)
Lemma polled_item_shows_its_icon n s :
  permission (this s) = PermGranted ->
  alreadyShown (lastNotificationId (this s)) (Notif.notification_id n) = false ->
  exists options rest,
    effects (showPolled n) s
    = NewNotification (shown (platform s)) (Notif.title n) options :: rest
    /\ Options.icon options = IconDataURL (JsString (iconForType (Notif.type n))).
Proof.
  destruct s as [[perm ci last sound mi] p]. simpl. intros -> Hpass.
  unfold effects, showPolled, showNotification, playSound, getThis, mbind,
    M_bind.
  simpl. rewrite Hpass. destruct sound; simpl;
    (eexists _, _; split; [reflexivity|]; apply polled_icon_is_rasterised).
Qed.

Lemma manual_trigger_shows_its_icon type title message jobId s :
  permission (this s) = PermGranted ->
  exists options rest,
    effects (triggerNotification type title message jobId) s
    = NewNotification (shown (platform s)) title options :: rest
    /\ Options.icon options
       = Options.icon
           (optionsFor (Args.mk title message (manualIcon type) None None)).
Proof.
  destruct s as [[perm ci last sound mi] p]. simpl. intros ->.
  unfold effects, triggerNotification, showNotification, playSound, Date_now,
    getPlatform, getThis, mbind, M_bind. simpl.
  destruct sound; simpl; (eexists _, _; split; reflexivity).
Qed.

(** [icons[type]] also finds what an object literal inherits: for such a
    name the "icon" is not a glyph at all. *)
Lemma manual_trigger_finds_inherited_members :
  manualIcon "toString" = JsFunction "toString" 0
  /\ manualIcon "__proto__" = JsObjectPrototype.
Proof. by vm_compute. Qed.

(** C7, as the code has it.  For a polled item the icon is a total function
    of [notif.type]: flame for critical, bolt for urgent, briefcase for
    new_job, and the bell for default and for every other type.  The manual
    trigger reads its own table, which has three further categories
    (deadline: alarm clock, success: check mark, info: light bulb); a
    category that is neither in that table nor the name of a member
    inherited from [Object.prototype] gets the bell. *)
Theorem icon_selection (type : string) :
  (iconForType "critical" = "🔥"
   /\ iconForType "urgent" = "⚡"
   /\ iconForType "new_job" = "💼"
   /\ iconForType "default" = bell)
  /\ (String.eqb type "critical" = false ->
      String.eqb type "urgent" = false ->
      String.eqb type "new_job" = false ->
      iconForType type = bell)
  /\ (manualIcon "critical" = JsString "🔥"
      /\ manualIcon "urgent" = JsString "⚡"
      /\ manualIcon "new_job" = JsString "💼"
      /\ manualIcon "deadline" = JsString "⏰"
      /\ manualIcon "success" = JsString "✅"
      /\ manualIcon "info" = JsString "💡"
      /\ manualIcon "default" = JsString bell)
  /\ (icons !! type = None ->
      Object_prototype type = JsUndefined ->
      manualIcon type = JsString bell).
Proof.
  split; [by vm_compute|]. split.
  { intros H1 H2 H3. unfold iconForType. by rewrite H1, H2, H3. }
  split; [vm_compute; by repeat split|].
  intros H1 H2. unfold manualIcon, get_property. by rewrite H1, H2.
Qed.

Lemma icon_selection_witness :
  String.eqb "reminder" "critical" = false
  /\ String.eqb "reminder" "urgent" = false
  /\ String.eqb "reminder" "new_job" = false
  /\ icons !! "reminder" = None
  /\ Object_prototype "reminder" = JsUndefined
  /\ iconForType "reminder" = bell
  /\ manualIcon "reminder" = JsString bell.
Proof.
  split; [reflexivity|]. split; [reflexivity|]. split; [reflexivity|].
  split; [vm_compute; reflexivity|]. split; [reflexivity|].
  split.
  - apply (proj1 (proj2 (icon_selection "reminder"))); reflexivity.
  - apply (proj2 (proj2 (proj2 (icon_selection "reminder"))));
      [vm_compute; reflexivity | reflexivity].
Defined.

(** C7, as stated, fails on the manual trigger: "deadline" is none of
    critical, urgent, new_job and default, and it does not get the bell. *)
Lemma manual_trigger_has_more_categories :
  manualIcon "deadline" = JsString "⏰"
  /\ manualIcon "deadline" <> JsString bell
  /\ ~ (forall type,
          String.eqb type "critical" = false ->
          String.eqb type "urgent" = false ->
          String.eqb type "new_job" = false ->
          manualIcon type = JsString bell).
Proof.
  assert (manualIcon "deadline" = JsString "⏰") as H by (by vm_compute).
  split; [done|]. split; [by rewrite H|].
  intros Hall. specialize (Hall "deadline" eq_refl eq_refl eq_refl).
  by rewrite H in Hall.
Qed.

(** * Further properties of the code *)

#[global] Instance sameHandle_preorder : PreOrder sameHandle.
Proof. split; unfold sameHandle; [by intros s | intros s1 s2 s3; congruence]. Qed.

#[global] Instance sameSound_preorder : PreOrder sameSound.
Proof. split; unfold sameSound; [by intros s | intros s1 s2 s3; congruence]. Qed.

#[global] Instance samePlatformPermission_preorder :
  PreOrder samePlatformPermission.
Proof.
  split; unfold samePlatformPermission; [by intros s | intros s1 s2 s3; congruence].
Qed.

(** ** The options of a notification *)

Lemma bell_length : js_length bell = 2%nat.
Proof. reflexivity. Qed.

(** X1.  Whatever [showNotification] is given, the options it builds carry a
    non-empty tag: the caller's, or ['job-notification'] when none or an
    empty one is passed.  The bell glyph, like every non-empty icon string
    of at most two UTF-16 units, ends up replaced by its rendering, so the
    bell-image path first assigned for it is overwritten.  A missing or
    empty icon gives the job-image path, and a longer string is passed on
    as it is. *)
Theorem showNotification_options (a : Args.t) :
  Options.tag (optionsFor a) <> EmptyString
  /\ (Args.tag a = None \/ Args.tag a = Some EmptyString ->
      Options.tag (optionsFor a) = "job-notification")
  /\ (forall t, Args.tag a = Some t -> t <> EmptyString ->
        Options.tag (optionsFor a) = t)
  /\ (Args.icon a = JsString bell ->
      Options.icon (optionsFor a) = IconDataURL (JsString bell))
  /\ (truthy (Args.icon a) = false ->
      Options.icon (optionsFor a) = IconRaw (JsString "/static/icon-job.png"))
  /\ (forall g, Args.icon a = JsString g -> g <> EmptyString ->
        (js_length g <= 2)%nat ->
        Options.icon (optionsFor a) = IconDataURL (JsString g))
  /\ (forall g, Args.icon a = JsString g -> (2 < js_length g)%nat ->
        Options.icon (optionsFor a) = IconRaw (JsString g)).
Proof.
  destruct a as [title body icon tag data]. unfold optionsFor. simpl.
  split; [|split; [|split; [|split; [|split; [|split]]]]].
  - destruct tag as [t|]; [|done].
    destruct (String.eqb_spec t EmptyString); [done|done].
  - by intros [-> | ->].
  - intros t -> Hne. by destruct (String.eqb_spec t EmptyString).
  - by intros ->.
  - intros Hf. rewrite Hf. simpl.
    destruct icon as [|g|name arity|]; simpl in *; try done.
    destruct (String.eqb_spec g bell) as [->|Hne]; [done|done].
  - intros g -> Hne Hlen. simpl.
    destruct (String.eqb_spec g EmptyString); [done|]. simpl.
    apply Nat.leb_le in Hlen. by rewrite Hlen.
  - intros g -> Hlen. simpl.
    assert ((js_length g <=? 2)%nat = false) as Hl by (apply Nat.leb_gt; lia).
    rewrite Hl, andb_false_r.
    destruct (String.eqb_spec g bell) as [->|Hne];
      [rewrite bell_length in Hlen; lia|].
    destruct (String.eqb_spec g EmptyString) as [->|]; [simpl in Hlen; lia|done].
Qed.

Lemma showNotification_options_witness :
  Args.icon testArgs = JsString bell
  /\ Args.tag testArgs = Some "test-notification"
  /\ "test-notification" <> EmptyString
  /\ Options.icon (optionsFor testArgs) = IconDataURL (JsString bell)
  /\ Options.tag (optionsFor testArgs) = "test-notification".
Proof.
  split; [reflexivity|]. split; [reflexivity|]. split; [discriminate|].
  split.
  - apply (proj1 (proj2 (proj2 (proj2 (showNotification_options testArgs))))).
    reflexivity.
  - apply (proj1 (proj2 (proj2 (showNotification_options testArgs))));
      [reflexivity | discriminate].
Defined.

(** ** Tags and click targets *)

Lemma to_int_wellformed z :
  Z.to_int z <> Decimal.Pos Decimal.Nil /\ Z.to_int z <> Decimal.Neg Decimal.Nil.
Proof.
  destruct z as [|p|p]; simpl; split; try discriminate;
    intros [= H]; by apply Stdlib.Numbers.DecimalPos.Unsigned.to_uint_nonnil in H.
Qed.

(** Interpolating an integer into a template literal loses nothing. *)
Lemma string_of_Z_inj a b : string_of_Z a = string_of_Z b -> a = b.
Proof.
  unfold string_of_Z. intros H.
  destruct (to_int_wellformed a) as [Ha1 Ha2].
  destruct (to_int_wellformed b) as [Hb1 Hb2].
  pose proof (NilZero.isi _ Ha1 Ha2) as Ia.
  pose proof (NilZero.isi _ Hb1 Hb2) as Ib.
  rewrite H, Ib in Ia. injection Ia as Ia.
  by rewrite <- (Stdlib.Numbers.DecimalZ.of_to a), <- (Stdlib.Numbers.DecimalZ.of_to b), Ia.
Qed.

(** X2.  The tag of a polled notification is ["notification-"] followed by
    its id: two polled items carry the same tag exactly when they have the
    same id.  A manual trigger's tag is ["manual-"] followed by the clock
    reading, so it differs for different readings, and it never coincides
    with the tag of a polled item or of the confirmation alert. *)
Theorem notification_tags (n1 n2 : Notif.t) (type title message : string)
    (jobId : option Z) (t1 t2 : Z) :
  (Options.tag (optionsFor (polledArgs n1))
     = Options.tag (optionsFor (polledArgs n2))
   <-> Notif.notification_id n1 = Notif.notification_id n2)
  /\ (Options.tag (optionsFor (manualArgs type title message jobId t1))
        = Options.tag (optionsFor (manualArgs type title message jobId t2))
      <-> t1 = t2)
  /\ Options.tag (optionsFor (polledArgs n1))
     <> Options.tag (optionsFor (manualArgs type title message jobId t1))
  /\ Options.tag (optionsFor (polledArgs n1)) <> Options.tag (optionsFor testArgs)
  /\ Options.tag (optionsFor (manualArgs type title message jobId t1))
     <> Options.tag (optionsFor testArgs).
Proof.
  unfold optionsFor, polledArgs, manualArgs, testArgs. simpl.
  split; [|split; [|split; [|split]]]; try done.
  - split; [|by intros ->]. intros [= H]. by apply string_of_Z_inj.
  - split; [|by intros ->]. intros [= H]. by apply string_of_Z_inj.
Qed.

Lemma jobUrl_nonempty jobId : String.eqb (jobUrl jobId) EmptyString = false.
Proof. destruct jobId as [[|p|p]|]; done. Qed.

(** X3.  A click on a polled notification focuses the window, navigates and
    closes that notification.  The target is ['/jobs'] when the item has no
    job id or the job id 0, and ['/jobs#job-<id>'] otherwise, different
    jobs giving different targets; the confirmation alert, shown without
    data, leads to ['/jobs']. *)
Theorem click_navigates_to_the_job (n : Notif.t) (handle : nat) :
  onclick handle (Options.data (optionsFor (polledArgs n)))
    = [PreventDefault; WindowFocus; Navigate (jobUrl (Notif.job_id n));
       CloseNotification handle]
  /\ onclick handle (Options.data (optionsFor testArgs))
     = [PreventDefault; WindowFocus; Navigate "/jobs"; CloseNotification handle]
  /\ (Notif.job_id n = None \/ Notif.job_id n = Some 0 ->
      jobUrl (Notif.job_id n) = "/jobs")
  /\ (forall j, Notif.job_id n = Some j -> j <> 0 ->
        jobUrl (Notif.job_id n) = ("/jobs#job-" ++ string_of_Z j)%string)
  /\ (forall j1 j2, j1 <> 0 -> j2 <> 0 ->
        jobUrl (Some j1) = jobUrl (Some j2) -> j1 = j2).
Proof.
  split; [|split; [|split; [|split]]].
  - unfold onclick, clickTarget, optionsFor, polledArgs. simpl.
    by rewrite jobUrl_nonempty.
  - done.
  - by intros [->| ->].
  - intros j -> Hj. simpl. destruct (Z.eqb_spec j 0); [done|done].
  - intros j1 j2 H1 H2. simpl.
    destruct (Z.eqb_spec j1 0); [done|]. destruct (Z.eqb_spec j2 0); [done|].
    simpl. intros [= H]. by apply string_of_Z_inj.
Qed.

Lemma click_navigates_to_the_job_witness :
  (Notif.job_id (item 7 "urgent") = None
   \/ Notif.job_id (item 7 "urgent") = Some 0 ->
   jobUrl (Notif.job_id (item 7 "urgent")) = "/jobs")
  /\ jobUrl (Notif.job_id (item 7 "urgent")) = "/jobs"
  /\ (12 <> 0 -> 15 <> 0 -> jobUrl (Some 12) = jobUrl (Some 15) -> 12 = 15).
Proof.
  split; [apply (click_navigates_to_the_job (item 7 "urgent") 0)|].
  split.
  - apply (click_navigates_to_the_job (item 7 "urgent") 0). left. reflexivity.
  - apply (click_navigates_to_the_job (item 7 "urgent") 0).
Defined.

(** ** What a poll displays, in full *)

Lemma showPolled_displayed_as n s :
  permission (this s) = PermGranted ->
  displayed (effects (showPolled n) s) =
  if alreadyShown (lastNotificationId (this s)) (Notif.notification_id n)
  then [] else [(Notif.title n, optionsFor (polledArgs n))].
Proof.
  destruct s as [[perm ci last sound mi] p]. simpl. intros ->.
  unfold effects, showPolled, showNotification, playSound, getThis, mbind,
    M_bind. simpl.
  destruct (alreadyShown last (Notif.notification_id n)); [done|].
  by destruct sound.
Qed.

Lemma loop_displayed_as ns : forall s,
  permission (this s) = PermGranted ->
  displayed (effects (forEach ns showPolled) s)
  = map (fun n => (Notif.title n, optionsFor (polledArgs n)))
      (fresh (lastNotificationId (this s)) ns).
Proof.
  induction ns as [|n ns IH]; intros s Hg; [done|]. simpl.
  rewrite (effects_bind _ _ _ _ (showPolled_outcome n s)).
  unfold displayed in *. rewrite omap_app.
  fold (displayed (effects (showPolled n) s)).
  rewrite (showPolled_displayed_as n s Hg), IH, showPolled_this;
    [|by rewrite showPolled_this].
  by destruct (alreadyShown (lastNotificationId (this s))
                 (Notif.notification_id n)).
Qed.

Lemma check_displayed_as s :
  permission (this s) = PermGranted ->
  displayed (effects checkForNewNotifications s)
  = map (fun n => (Notif.title n, optionsFor (polledArgs n)))
      (fresh (lastNotificationId (this s)) (batchOf (nextOutcome s))).
Proof.
  intros Hg. unfold effects at 1. rewrite check_eq. cbn [snd].
  change (displayed (Fetch endpoint :: ?l)) with (displayed l).
  destruct (pollFails (nextOutcome s)) eqn:E.
  - unfold effects. rewrite (resume_fails _ _ E). cbn [snd].
    rewrite (fails_empty_batch _ E). by destruct (thrownBy (nextOutcome s)).
  - destruct (succeeds_shape _ E) as [ns ->].
    unfold effects at 1. rewrite resume_succeeds. cbn [snd].
    rewrite loop_displayed_as, call_this; [done|by rewrite call_this].
Qed.

Lemma check_one_fetch s : fetchCount (effects checkForNewNotifications s) = 1%nat.
Proof.
  unfold effects. rewrite check_eq. cbn [snd]. unfold fetchCount. simpl.
  assert (emits (fun e => negb (isFetch e))
            (checkForNewNotifications_resume (nextOutcome s))) as He
    by (methods; shape).
  by rewrite (filter_none _ _ (He _)).
Qed.

(** X4.  Under granted permission one poll sends one request and constructs
    one notification for each item of the batch that passes the already-seen
    test, in the order of the response and with title, body, icon, tag and
    data taken from the item; nothing else is displayed.  With a set,
    non-zero Watermark the items that pass are exactly those whose id is
    strictly greater. *)
Theorem poll_displays_the_fresh_items (s : Sys) :
  permission (this s) = PermGranted ->
  displayed (effects checkForNewNotifications s)
    = map (fun n => (Notif.title n, optionsFor (polledArgs n)))
        (fresh (lastNotificationId (this s)) (batchOf (nextOutcome s)))
  /\ fetchCount (effects checkForNewNotifications s) = 1%nat
  /\ (forall w, lastNotificationId (this s) = Some w -> w <> 0 ->
        forall n,
          In n (fresh (lastNotificationId (this s)) (batchOf (nextOutcome s)))
          <-> In n (batchOf (nextOutcome s)) /\ w < Notif.notification_id n).
Proof.
  intros Hg. split; [by apply check_displayed_as|].
  split; [apply check_one_fetch|].
  intros w -> Hw n. unfold fresh. rewrite List.filter_In. simpl.
  destruct (Z.eqb_spec w 0); [done|]. simpl.
  rewrite negb_true_iff, Z.leb_gt. done.
Qed.

Lemma poll_displays_the_fresh_items_witness :
  permission (this newsPage) = PermGranted
  /\ displayed (effects checkForNewNotifications newsPage)
     = map (fun n => (Notif.title n, optionsFor (polledArgs n)))
         [item 9 "new_job"; item 6 "new_job"]
  /\ fetchCount (effects checkForNewNotifications newsPage) = 1%nat.
Proof.
  split; [reflexivity|].
  destruct (poll_displays_the_fresh_items newsPage eq_refl) as (H1 & H2 & _).
  split; [exact H1|exact H2].
Defined.

(** ** What a poll does to the Watermark *)

Lemma Math_max_in x xs : In (Math_max x xs) (x :: xs).
Proof.
  unfold Math_max. revert x. induction xs as [|y xs IH]; intros x; simpl;
    [by left|].
  destruct (IH (Z.max x y)) as [H|H]; [|by right; right].
  destruct (Z.max_spec x y) as [[_ E]|[_ E]]; rewrite E in *.
  - right. by left.
  - by left.
Qed.

(** X5.  A poll changes no field of the manager other than the Watermark.  A
    failed poll and an empty batch leave the Watermark as it was; after a
    successful non-empty batch it is the largest id of that batch, whatever
    it was before and whether or not anything was displayed.  The interval
    timers are untouched. *)
Theorem poll_updates_only_the_watermark (s : Sys) :
  (batchOf (nextOutcome s) = [] ->
   this (exec checkForNewNotifications s) = this s)
  /\ (forall n ns, batchOf (nextOutcome s) = n :: ns ->
        exists m,
          this (exec checkForNewNotifications s)
            = withWatermark (Some m) (this s)
          /\ In m (map Notif.notification_id (n :: ns))
          /\ forall n', In n' (n :: ns) -> Notif.notification_id n' <= m)
  /\ intervals (platform (exec checkForNewNotifications s))
     = intervals (platform s)
  /\ fetches (platform (exec checkForNewNotifications s))
     = S (fetches (platform s)).
Proof.
  split; [|split; [|split]].
  - intros He. rewrite check_this. unfold watermarkAfter. rewrite He.
    apply withWatermark_same.
  - intros n ns He. eexists. split; [|split].
    + rewrite check_this. unfold watermarkAfter. rewrite He. reflexivity.
    + apply (Math_max_in (Notif.notification_id n)
               (map Notif.notification_id ns)).
    + intros n' Hin. apply Math_max_upper.
      change (In (Notif.notification_id n')
                (map Notif.notification_id (n :: ns))). by apply in_map.
  - apply intervals_checkForNewNotifications.
  - apply check_fetches.
Qed.

Lemma poll_updates_only_the_watermark_witness :
  batchOf (nextOutcome newsPage)
    = item 9 "new_job" :: [item 2 "new_job"; item 6 "new_job"]
  /\ exists m,
       this (exec checkForNewNotifications newsPage)
         = withWatermark (Some m) (this newsPage)
       /\ In m (map Notif.notification_id
                  (item 9 "new_job" :: [item 2 "new_job"; item 6 "new_job"]))
       /\ forall n',
            In n' (item 9 "new_job" :: [item 2 "new_job"; item 6 "new_job"]) ->
            Notif.notification_id n' <= m.
Proof.
  split; [reflexivity|].
  apply (poll_updates_only_the_watermark newsPage). reflexivity.
Defined.

(** X6.  A poll made while permission is not granted displays nothing and
    yet moves the Watermark to the largest id of its batch: once permission
    is granted, a poll displays none of these items unless that largest id
    was 0. *)
Theorem silent_poll_consumes_its_batch (s : Sys) (n : Notif.t)
    (ns : list Notif.t) :
  notGranted s ->
  batchOf (nextOutcome s) = n :: ns ->
  List.filter isDisplay (effects checkForNewNotifications s) = []
  /\ lastNotificationId (this (exec checkForNewNotifications s))
     = Some (Math_max (Notif.notification_id n) (map Notif.notification_id ns))
  /\ (forall t n',
        permission (this t) = PermGranted ->
        lastNotificationId (this t)
          = lastNotificationId (this (exec checkForNewNotifications s)) ->
        Math_max (Notif.notification_id n) (map Notif.notification_id ns) <> 0 ->
        In n' (n :: ns) ->
        ~ In (Notif.notification_id n')
            (displayedIds (effects checkForNewNotifications t))).
Proof.
  intros Hn He.
  assert (lastNotificationId (this (exec checkForNewNotifications s))
          = Some (Math_max (Notif.notification_id n)
                    (map Notif.notification_id ns))) as Hw.
  { rewrite check_this. unfold watermarkAfter. by rewrite He. }
  split; [|split; [done|]].
  - apply filter_none.
    apply (quiet_step OpCheckForNewNotifications eq_refl s Hn).
  - intros t n' Hg Hlast Hnz Hin Hshown.
    rewrite Hw in Hlast.
    destruct (displaying_tick_raises_watermark t _ _ Hg Hlast Hnz Hshown)
      as [Hlt _].
    pose proof (Math_max_upper (Notif.notification_id n)
                  (map Notif.notification_id ns) (Notif.notification_id n'))
      as Hup.
    assert (In (Notif.notification_id n')
              (Notif.notification_id n :: map Notif.notification_id ns)) as Hin'
      by (change (In (Notif.notification_id n')
                    (map Notif.notification_id (n :: ns))); by apply in_map).
    specialize (Hup Hin'). lia.
Qed.

Lemma silent_poll_consumes_its_batch_witness :
  notGranted blockedPage
  /\ batchOf (nextOutcome blockedPage)
     = item 7 "new_job" :: [item 8 "new_job"]
  /\ List.filter isDisplay (effects checkForNewNotifications blockedPage) = []
  /\ lastNotificationId (this (exec checkForNewNotifications blockedPage))
     = Some (Math_max 7 [8]).
Proof.
  split; [reflexivity|]. split; [reflexivity|].
  destruct (silent_poll_consumes_its_batch blockedPage (item 7 "new_job")
              [item 8 "new_job"] eq_refl eq_refl) as (H1 & H2 & _).
  split; [exact H1|exact H2].
Defined.

(** ** Handling a poll's answer *)

Lemma resume_this o s :
  this (exec (checkForNewNotifications_resume o) s)
  = withWatermark (watermarkAfter o (lastNotificationId (this s))) (this s).
Proof.
  destruct (pollFails o) eqn:E.
  - unfold exec. rewrite (resume_fails _ _ E). cbn [fst snd].
    unfold watermarkAfter. by rewrite (fails_empty_batch _ E), withWatermark_same.
  - destruct (succeeds_shape _ E) as [ns ->].
    unfold exec at 1. by rewrite resume_succeeds.
Qed.

Lemma resume_displayed_as o s :
  permission (this s) = PermGranted ->
  displayed (effects (checkForNewNotifications_resume o) s)
  = map (fun n => (Notif.title n, optionsFor (polledArgs n)))
      (fresh (lastNotificationId (this s)) (batchOf o)).
Proof.
  intros Hg. destruct (pollFails o) eqn:E.
  - unfold effects. rewrite (resume_fails _ _ E). cbn [snd].
    rewrite (fails_empty_batch _ E). by destruct (thrownBy o).
  - destruct (succeeds_shape _ E) as [ns ->].
    unfold effects at 1. rewrite resume_succeeds. cbn [snd].
    by apply loop_displayed_as.
Qed.

Lemma resume_intervals o s :
  intervals (platform (exec (checkForNewNotifications_resume o) s))
  = intervals (platform s).
Proof.
  assert (keeps sameIntervals (checkForNewNotifications_resume o)) as H
    by (methods; shape).
  apply H.
Qed.

Lemma resume_no_fetch o s :
  List.filter isFetch (effects (checkForNewNotifications_resume o) s) = [].
Proof.
  assert (emits (fun e => negb (isFetch e))
            (checkForNewNotifications_resume o)) as H by (methods; shape).
  apply filter_none, H.
Qed.

(** [startMonitoring]'s continuation in one equation. *)
Lemma startMonitoring_resume_eq o s :
  let s2 := exec (checkForNewNotifications_resume o) s in
  startMonitoring_resume o s =
  (Normal tt, exec startMonitoring_schedule s2,
   effects (checkForNewNotifications_resume o) s
   ++ [SetInterval (nextTimerId (platform s2)) CbCheckForNewNotifications
         (checkInterval (this s2));
       ConsoleLog ("✅ Monitoring every "
                   ++ string_of_Z (checkInterval (this s2) / 1000)
                   ++ " seconds")%string]).
Proof.
  intros s2. unfold startMonitoring_resume.
  rewrite (run_eta (_ ≫= _)).
  rewrite (outcome_bind _ _ _ _ (resume_outcome o s)),
    (exec_bind _ _ _ _ (resume_outcome o s)),
    (effects_bind _ _ _ _ (resume_outcome o s)).
  fold s2. unfold outcome, exec at 1, effects at 2.
  by rewrite (schedule_eq s2).
Qed.

Lemma schedule_this s :
  this (exec startMonitoring_schedule s)
  = mkManager (permission (this s)) (checkInterval (this s))
      (lastNotificationId (this s)) (notificationSound (this s))
      (Some (nextTimerId (platform s))).
Proof. by destruct s as [m p]. Qed.

(** What [startMonitoring]'s continuation leaves behind and displays. *)
Lemma startMonitoring_resume_spec o s :
  let s' := exec (startMonitoring_resume o) s in
  exists id,
    this s' = mkManager (permission (this s)) (checkInterval (this s))
                (watermarkAfter o (lastNotificationId (this s)))
                (notificationSound (this s)) (Some id)
    /\ intervals (platform s')
       = <[id := (CbCheckForNewNotifications, checkInterval (this s))]>
           (intervals (platform s))
    /\ fetchCount (effects (startMonitoring_resume o) s) = 0%nat
    /\ (permission (this s) = PermGranted ->
        displayed (effects (startMonitoring_resume o) s)
        = map (fun n => (Notif.title n, optionsFor (polledArgs n)))
            (fresh (lastNotificationId (this s)) (batchOf o))).
Proof.
  intros s'. subst s'.
  pose proof (startMonitoring_resume_eq o s) as Heq. cbv zeta in Heq.
  set (s2 := exec (checkForNewNotifications_resume o) s) in *.
  assert (exec (startMonitoring_resume o) s = exec startMonitoring_schedule s2)
    as -> by (unfold exec at 1; by rewrite Heq).
  assert (effects (startMonitoring_resume o) s
          = effects (checkForNewNotifications_resume o) s
            ++ [SetInterval (nextTimerId (platform s2))
                  CbCheckForNewNotifications (checkInterval (this s2));
                ConsoleLog ("✅ Monitoring every "
                            ++ string_of_Z (checkInterval (this s2) / 1000)
                            ++ " seconds")%string])
    as -> by (unfold effects at 1; by rewrite Heq).
  assert (this s2 = withWatermark
                      (watermarkAfter o (lastNotificationId (this s))) (this s))
    as Ht by apply resume_this.
  exists (nextTimerId (platform s2)). split; [|split; [|split]].
  - rewrite schedule_this, Ht. by destruct (this s).
  - rewrite schedule_intervals, Ht. subst s2. rewrite resume_intervals.
    by destruct (this s).
  - rewrite fetchCount_app. unfold fetchCount at 1.
    by rewrite resume_no_fetch.
  - intros Hg. unfold displayed. rewrite omap_app. simpl. rewrite app_nil_r.
    by apply resume_displayed_as.
Qed.

(** ** Construction *)

Lemma fresh_unset ns : fresh None ns = ns.
Proof. unfold fresh. induction ns as [|n ns IH]; simpl; [done|by f_equal]. Qed.

(** X7.  Constructing the manager on a page whose permission is not granted
    contacts nobody: no request, no timer, no notification, no sound.  It
    logs, shows the permission prompt when the permission is still
    undecided (and only then), and prepares the tone, warning when no
    [AudioContext] can be built; monitoring is not started. *)
Theorem construction_without_permission_is_offline (s : Sys) :
  permission_eqb (browserPermission (platform s)) PermGranted = false ->
  platform (exec constructor s) = platform s
  /\ this (exec constructor s)
     = mkManager (browserPermission (platform s)) 30000 None
         (audioAvailable (platform s)) None
  /\ effects constructor s =
     [ConsoleLog "🔔 Initializing Browser Notifications...";
      match browserPermission (platform s) with
      | PermDefault => DomUpdate "notificationPrompt"
      | _ => ConsoleLog "⊘ Notification permission denied"
      end]
     ++ (if audioAvailable (platform s) then []
         else [ConsoleWarn "Could not create notification sound:"])
  /\ List.filter isNetworkOrTimer (effects constructor s) = [].
Proof.
  destruct s as [m [iv nx f sh gw nw au bp pa]]. simpl. intros H.
  destruct bp; [|done|]; by destruct au.
Qed.

Lemma construction_without_permission_is_offline_witness :
  permission_eqb (browserPermission (platform (page PermDefault PermGranted [])))
    PermGranted = false
  /\ platform (exec constructor (page PermDefault PermGranted []))
     = platform (page PermDefault PermGranted [])
  /\ List.filter isNetworkOrTimer
       (effects constructor (page PermDefault PermGranted [])) = [].
Proof.
  split; [reflexivity|].
  destruct (construction_without_permission_is_offline
              (page PermDefault PermGranted []) eq_refl) as (H1 & _ & _ & H4).
  split; [exact H1|exact H4].
Defined.

Lemma constructor_granted_eq s :
  browserPermission (platform s) = PermGranted ->
  let s1 := exec createNotificationSound
              (exec checkForNewNotifications_call
                 (mkSys (mkManager PermGranted 30000 None false None)
                    (platform s))) in
  constructor s =
  (outcome (startMonitoring_resume (nextOutcome s)) s1,
   exec (startMonitoring_resume (nextOutcome s)) s1,
   [ConsoleLog "🔔 Initializing Browser Notifications...";
    ConsoleLog "✅ Notification permission already granted";
    ConsoleLog "🔄 Starting notification monitoring...";
    Fetch endpoint]
   ++ (if audioAvailable (platform s) then []
       else [ConsoleWarn "Could not create notification sound:"])
   ++ effects (startMonitoring_resume (nextOutcome s)) s1).
Proof.
  destruct s as [m [iv nx f sh gw nw au bp pa]]. simpl. intros ->.
  unfold outcome, exec, effects, nextOutcome. simpl.
  unfold constructor, init, startMonitoring_call,
    checkForNewNotifications_call, fetch, createNotificationSound,
    setNotificationSound, console_log, console_warn, emit, getPlatform,
    setPlatform, getThis, setThis, mbind, M_bind, mret, M_ret.
  simpl. destruct au; simpl;
    by destruct (startMonitoring_resume (gw f) _) as [[r s2] e2].
Qed.

(** X8.  Constructing the manager on a page that already has permission
    starts monitoring at once: exactly one request is sent, the tone is
    prepared before the answer is handled, every item of the first batch is
    displayed (the Watermark being unset), the Watermark becomes the
    largest id of that batch, and one interval timer polling every 30000 ms
    is registered and recorded. *)
Theorem construction_with_permission_starts_monitoring (s : Sys) :
  browserPermission (platform s) = PermGranted ->
  exists id,
    this (exec constructor s)
      = mkManager PermGranted 30000 (watermarkAfter (nextOutcome s) None)
          (audioAvailable (platform s)) (Some id)
    /\ intervals (platform (exec constructor s))
       = <[id := (CbCheckForNewNotifications, 30000)]> (intervals (platform s))
    /\ fetchCount (effects constructor s) = 1%nat
    /\ displayed (effects constructor s)
       = map (fun n => (Notif.title n, optionsFor (polledArgs n)))
           (batchOf (nextOutcome s)).
Proof.
  intros Hg. pose proof (constructor_granted_eq s Hg) as Heq. cbv zeta in Heq.
  set (s1 := exec createNotificationSound
               (exec checkForNewNotifications_call
                  (mkSys (mkManager PermGranted 30000 None false None)
                     (platform s)))) in *.
  assert (this s1 = mkManager PermGranted 30000 None
                      (audioAvailable (platform s)) None
          /\ intervals (platform s1) = intervals (platform s)) as [Ht Hi].
  { subst s1. destruct s as [m [iv nx f sh gw nw au bp pa]]. simpl.
    by destruct au. }
  destruct (startMonitoring_resume_spec (nextOutcome s) s1)
    as (id & H1 & H2 & H3 & H4).
  exists id.
  assert (exec constructor s
          = exec (startMonitoring_resume (nextOutcome s)) s1)
    as -> by (unfold exec at 1; by rewrite Heq).
  assert (effects constructor s
          = [ConsoleLog "🔔 Initializing Browser Notifications...";
             ConsoleLog "✅ Notification permission already granted";
             ConsoleLog "🔄 Starting notification monitoring...";
             Fetch endpoint]
            ++ (if audioAvailable (platform s) then []
                else [ConsoleWarn "Could not create notification sound:"])
            ++ effects (startMonitoring_resume (nextOutcome s)) s1)
    as -> by (unfold effects at 1; by rewrite Heq).
  split; [|split; [|split]].
  - rewrite H1, Ht. done.
  - rewrite H2, Ht, Hi. done.
  - rewrite !fetchCount_app, H3. by destruct (audioAvailable (platform s)).
  - unfold displayed. rewrite !omap_app.
    fold (displayed (effects (startMonitoring_resume (nextOutcome s)) s1)).
    rewrite H4 by (by rewrite Ht). rewrite Ht. simpl.
    rewrite fresh_unset.
    by destruct (audioAvailable (platform s)).
Qed.

Lemma construction_with_permission_starts_monitoring_witness :
  browserPermission (platform reappearing) = PermGranted
  /\ exists id,
       this (exec constructor reappearing)
         = mkManager PermGranted 30000
             (watermarkAfter (nextOutcome reappearing) None)
             (audioAvailable (platform reappearing)) (Some id)
       /\ intervals (platform (exec constructor reappearing))
          = <[id := (CbCheckForNewNotifications, 30000)]>
              (intervals (platform reappearing))
       /\ fetchCount (effects constructor reappearing) = 1%nat
       /\ displayed (effects constructor reappearing)
          = map (fun n => (Notif.title n, optionsFor (polledArgs n)))
              (batchOf (nextOutcome reappearing)).
Proof.
  split; [reflexivity|].
  apply (construction_with_permission_starts_monitoring reappearing).
  reflexivity.
Defined.

(** ** Asking for permission *)

(** X9.  A permission request that is rejected changes nothing and is only
    logged.  One that is answered with anything but ['granted'], a
    dismissed dialog included, stores the answer, logs, shows the
    "Notifications Blocked" message and schedules its removal five seconds
    later, and does nothing else: it sends no request, constructs no
    notification and registers or clears no interval timer. *)
Theorem refused_permission_request (s : Sys) :
  (promptAnswer (platform s) = None ->
   requestPermission s
   = (Normal tt, s,
      [ConsoleError "Error requesting permission:" PermissionError]))
  /\ (forall answer,
        promptAnswer (platform s) = Some answer ->
        permission_eqb answer PermGranted = false ->
        this (exec requestPermission s)
          = mkManager answer (checkInterval (this s))
              (lastNotificationId (this s)) (notificationSound (this s))
              (monitoringInterval (this s))
        /\ effects requestPermission s
           = [ConsoleLog "⊘ Notification permission denied";
              DomUpdate "Notifications Blocked";
              SetTimeout (nextTimerId (platform s)) CbRemoveMessage 5000]
        /\ intervals (platform (exec requestPermission s))
           = intervals (platform s)
        /\ fetches (platform (exec requestPermission s))
           = fetches (platform s)
        /\ shown (platform (exec requestPermission s))
           = shown (platform s)).
Proof.
  destruct s as [[perm ci last sound mi] [iv nx f sh gw nw au bp pa]]. simpl.
  split.
  - intros ->. reflexivity.
  - intros answer -> Ha.
    unfold exec, effects, requestPermission, try_catch,
      Notification_requestPermission, setPermission, showDeniedMessage,
      setTimeout, console_log, emit, getPlatform, setPlatform,
      getThis, setThis, mbind, M_bind, mret, M_ret. simpl.
    rewrite Ha. done.
Qed.

Lemma refused_permission_request_witness :
  (promptAnswer (platform unansweredPage) = None
   /\ requestPermission unansweredPage
      = (Normal tt, unansweredPage,
         [ConsoleError "Error requesting permission:" PermissionError]))
  /\ promptAnswer (platform blockedPage) = Some PermDenied
  /\ permission_eqb PermDenied PermGranted = false
  /\ permission (this (exec requestPermission blockedPage)) = PermDenied
  /\ effects requestPermission blockedPage
     = [ConsoleLog "⊘ Notification permission denied";
        DomUpdate "Notifications Blocked";
        SetTimeout 1%positive CbRemoveMessage 5000]
  /\ intervals (platform (exec requestPermission blockedPage)) = ∅
  /\ fetches (platform (exec requestPermission blockedPage)) = 0%nat.
Proof.
  split.
  { split; [reflexivity|].
    apply (proj1 (refused_permission_request unansweredPage)). reflexivity. }
  split; [reflexivity|]. split; [reflexivity|].
  destruct (proj2 (refused_permission_request blockedPage) PermDenied
              eq_refl eq_refl) as (H1 & H2 & H3 & H4 & _).
  split; [by rewrite H1|]. split; [exact H2|].
  split; [by rewrite H3|by rewrite H4].
Defined.

Lemma requestPermission_granted_eq s :
  promptAnswer (platform s) = Some PermGranted ->
  let s0 := mkSys (mkManager PermGranted (checkInterval (this s))
                     (lastNotificationId (this s)) (notificationSound (this s))
                     (monitoringInterval (this s)))
              (mkPlatform (intervals (platform s))
                 (Pos.succ (nextTimerId (platform s)))
                 (fetches (platform s)) (shown (platform s))
                 (gateway (platform s)) (now (platform s))
                 (audioAvailable (platform s)) PermGranted
                 (promptAnswer (platform s))) in
  let s1 := exec checkForNewNotifications_call s0 in
  let s2 := exec showTestNotification s1 in
  requestPermission s =
  (outcome (startMonitoring_resume (nextOutcome s)) s2,
   exec (startMonitoring_resume (nextOutcome s)) s2,
   [ConsoleLog "✅ Notification permission granted!";
    DomUpdate "Notifications Enabled!";
    SetTimeout (nextTimerId (platform s)) CbRemoveMessage 3000;
    DomUpdate "dismissPrompt";
    ConsoleLog "🔄 Starting notification monitoring..."; Fetch endpoint]
   ++ effects showTestNotification s1
   ++ effects (startMonitoring_resume (nextOutcome s)) s2).
Proof.
  destruct s as [[perm ci last sound mi] [iv nx f sh gw nw au bp pa]]. simpl.
  intros ->.
  unfold outcome, exec, effects, nextOutcome. simpl.
  unfold requestPermission, try_catch, Notification_requestPermission,
    setPermission, showSuccessMessage, dismissPrompt, startMonitoring_call,
    checkForNewNotifications_call, fetch, showTestNotification,
    showNotification, newNotification, playSound, setTimeout, console_log,
    emit, getPlatform, setPlatform, getThis, setThis, mbind, M_bind, mret,
    M_ret.
  simpl. destruct sound; simpl;
    by destruct (startMonitoring_resume (gw f) _) as [[r s2] e2].
Qed.

(** X10.  A permission request answered ['granted'] stores the answer and
    starts monitoring: exactly one request is sent, the confirmation alert
    is the first notification constructed, the items of the answer that
    pass the already-seen test follow it, and one interval timer with the
    manager's [checkInterval] is registered and recorded, replacing
    whatever handle was recorded before. *)
Theorem granted_permission_request (s : Sys) :
  promptAnswer (platform s) = Some PermGranted ->
  exists id,
    this (exec requestPermission s)
      = mkManager PermGranted (checkInterval (this s))
          (watermarkAfter (nextOutcome s) (lastNotificationId (this s)))
          (notificationSound (this s)) (Some id)
    /\ intervals (platform (exec requestPermission s))
       = <[id := (CbCheckForNewNotifications, checkInterval (this s))]>
           (intervals (platform s))
    /\ fetchCount (effects requestPermission s) = 1%nat
    /\ displayed (effects requestPermission s)
       = ("🎉 Notifications Enabled!", optionsFor testArgs)
           :: map (fun n => (Notif.title n, optionsFor (polledArgs n)))
                (fresh (lastNotificationId (this s)) (batchOf (nextOutcome s))).
Proof.
  intros Ha. pose proof (requestPermission_granted_eq s Ha) as Heq.
  cbv zeta in Heq.
  match type of Heq with
  | context [exec showTestNotification ?x] => set (s1 := x) in *
  end.
  set (s2 := exec showTestNotification s1) in *.
  assert (this s2 = mkManager PermGranted (checkInterval (this s))
                      (lastNotificationId (this s)) (notificationSound (this s))
                      (monitoringInterval (this s))
          /\ intervals (platform s2) = intervals (platform s)
          /\ fetchCount (effects showTestNotification s1) = 0%nat
          /\ displayed (effects showTestNotification s1)
             = [("🎉 Notifications Enabled!", optionsFor testArgs)])
    as (Ht & Hi & Hf & Hd).
  { subst s2 s1.
    destruct s as [[perm ci last sound mi] [iv nx f sh gw nw au bp pa]].
    by destruct sound. }
  destruct (startMonitoring_resume_spec (nextOutcome s) s2)
    as (id & H1 & H2 & H3 & H4).
  exists id.
  assert (exec requestPermission s
          = exec (startMonitoring_resume (nextOutcome s)) s2)
    as -> by (unfold exec at 1; by rewrite Heq).
  assert (effects requestPermission s
          = [ConsoleLog "✅ Notification permission granted!";
             DomUpdate "Notifications Enabled!";
    SetTimeout (nextTimerId (platform s)) CbRemoveMessage 3000;
    DomUpdate "dismissPrompt";
             ConsoleLog "🔄 Starting notification monitoring..."; Fetch endpoint]
            ++ effects showTestNotification s1
            ++ effects (startMonitoring_resume (nextOutcome s)) s2)
    as -> by (unfold effects at 1; by rewrite Heq).
  split; [|split; [|split]].
  - rewrite H1, Ht. done.
  - rewrite H2, Ht, Hi. done.
  - rewrite !fetchCount_app, H3, Hf. done.
  - unfold displayed. rewrite !omap_app.
    fold (displayed (effects showTestNotification s1)).
    fold (displayed (effects (startMonitoring_resume (nextOutcome s)) s2)).
    rewrite Hd, H4 by (by rewrite Ht). rewrite Ht. done.
Qed.

Lemma granted_permission_request_witness :
  promptAnswer (platform (loaded PermDefault PermGranted [batch [4; 1]]))
    = Some PermGranted
  /\ fetchCount
       (effects requestPermission (loaded PermDefault PermGranted [batch [4; 1]]))
     = 1%nat
  /\ displayed
       (effects requestPermission (loaded PermDefault PermGranted [batch [4; 1]]))
     = ("🎉 Notifications Enabled!", optionsFor testArgs)
         :: map (fun n => (Notif.title n, optionsFor (polledArgs n)))
              [item 4 "new_job"; item 1 "new_job"].
Proof.
  split; [reflexivity|].
  destruct (granted_permission_request
              (loaded PermDefault PermGranted [batch [4; 1]]) eq_refl)
    as (id & _ & _ & H3 & H4).
  split; [exact H3|exact H4].
Defined.

(** ** The life of the polling timer *)

Lemma intervals_elapse n : keeps sameIntervals (elapse n).
Proof. induction n as [|n IH]; simpl; [|methods]; shape. Qed.

Lemma handle_elapse n : keeps sameHandle (elapse n).
Proof. induction n as [|n IH]; simpl; [|methods]; shape. Qed.

Lemma tracked_same s s' :
  intervals (platform s') = intervals (platform s) ->
  monitoringInterval (this s') = monitoringInterval (this s) ->
  onlyTrackedTimer s' = onlyTrackedTimer s.
Proof. unfold onlyTrackedTimer. by intros -> ->. Qed.

Lemma tracked_idle s : intervals (platform s) = ∅ -> onlyTrackedTimer s = true.
Proof. unfold onlyTrackedTimer. intros ->. by rewrite map_to_list_empty. Qed.

Lemma tracked_singleton s id t :
  intervals (platform s) = <[id := t]> ∅ ->
  monitoringInterval (this s) = Some id ->
  onlyTrackedTimer s = true.
Proof.
  unfold onlyTrackedTimer. intros -> ->.
  rewrite insert_empty, map_to_list_singleton. simpl. by rewrite Pos.eqb_refl.
Qed.

Lemma step_outcome op s : outcome (step op) s = Normal tt.
Proof. by destruct (normal_step op s) as [[] ->]. Qed.

Lemma constructor_outcome s : outcome constructor s = Normal tt.
Proof. by destruct (normal_constructor s) as [[] ->]. Qed.

Lemma stopMonitoring_outcome s : outcome stopMonitoring s = Normal tt.
Proof. by destruct s as [[perm ci last sound [id|]] p]. Qed.

(** ** How many requests a period sends *)

Lemma fire_all_count l : forall s,
  forallb (fun t : positive * (TimerCallback * Z) =>
             match fst (snd t) with
             | CbCheckForNewNotifications => true
             | CbCloseNotification _ => false
             | CbRemoveMessage => false
             end) l = true ->
  fetchCount (effects (forEach l (fun t => fire (fst (snd t)))) s) = length l.
Proof.
  induction l as [|[id [cb ms]] l IH]; intros s H; [done|].
  simpl in H. apply andb_true_iff in H as [H1 H2].
  destruct cb; [|done|done]. simpl.
  rewrite (effects_bind _ _ _ _ (check_outcome s)), fetchCount_app.
  by rewrite check_one_fetch, IH.
Qed.

Lemma elapseInterval_count s :
  pollingOnly s = true ->
  fetchCount (effects elapseInterval s) = size (intervals (platform s)).
Proof.
  intros H. unfold elapseInterval.
  rewrite (effects_bind getPlatform _ s (platform s) eq_refl). simpl.
  rewrite fire_all_count by done. apply length_map_to_list.
Qed.

Lemma elapseInterval_outcome s : outcome elapseInterval s = Normal tt.
Proof.
  assert (normal elapseInterval) as Hn by (methods; shape).
  by destruct (Hn s) as [[] ->].
Qed.

(** X13.  Polls are not coalesced: when every active interval timer is a
    polling timer, each elapsed period sends exactly one request per timer,
    so [periods] periods send [periods] times as many requests as there
    are timers, and the timers stay as they are. *)
Theorem requests_per_period (s : Sys) (periods : nat) :
  pollingOnly s = true ->
  fetchCount (effects (elapse periods) s)
    = (periods * size (intervals (platform s)))%nat
  /\ intervals (platform (exec (elapse periods) s)) = intervals (platform s).
Proof.
  intros H. split; [|apply intervals_elapse].
  revert s H. induction periods as [|n IH]; intros s H; [done|]. simpl.
  rewrite (effects_bind _ _ _ _ (elapseInterval_outcome s)), fetchCount_app.
  rewrite (elapseInterval_count s H), IH.
  - by rewrite intervals_elapseInterval.
  - unfold pollingOnly in *. by rewrite intervals_elapseInterval.
Qed.

Lemma requests_per_period_witness :
  pollingOnly stoppedAfterTwoStarts = true
  /\ fetchCount (effects (elapse 4) stoppedAfterTwoStarts)
     = (4 * size (intervals (platform stoppedAfterTwoStarts)))%nat
  /\ intervals (platform (exec (elapse 4) stoppedAfterTwoStarts))
     = intervals (platform stoppedAfterTwoStarts).
Proof.
  split; [reflexivity|].
  apply (requests_per_period stoppedAfterTwoStarts 4). reflexivity.
Defined.

(** ** Closing timeouts *)

Section Traces.
Variable Q : list Event -> Prop.
Hypothesis Q_nil : Q [].
Hypothesis Q_app : forall evs1 evs2, Q evs1 -> Q evs2 -> Q (evs1 ++ evs2).

Lemma traces_ret {A} (a : A) : traces Q (mret a).
Proof. intros s. apply Q_nil. Qed.

Lemma traces_bind {A B} (m : M A) (f : A -> M B) :
  traces Q m -> (forall a, traces Q (f a)) -> traces Q (m ≫= f).
Proof.
  intros Hm Hf s. specialize (Hm s). unfold effects, mbind, M_bind in *.
  destruct (m s) as [[[a|x] s1] e1]; simpl in *; [|done].
  specialize (Hf a s1). unfold effects in Hf.
  destruct (f a s1) as [[r s2] e2]. simpl in *. by apply Q_app.
Qed.

Lemma traces_try {A} (m : M A) (h : JsError -> M A) :
  traces Q m -> (forall e, traces Q (h e)) -> traces Q (try_catch m h).
Proof.
  intros Hm Hh s. specialize (Hm s). unfold effects, try_catch in *.
  destruct (m s) as [[[a|x] s1] e1]; simpl in *; [done|].
  specialize (Hh x s1). unfold effects in Hh.
  destruct (h x s1) as [[r s2] e2]. simpl in *. by apply Q_app.
Qed.

Lemma traces_forEach {A} (l : list A) (f : A -> M unit) :
  (forall a, traces Q (f a)) -> traces Q (forEach l f).
Proof.
  intros Hf. induction l as [|x l IH]; simpl.
  - apply traces_ret.
  - apply traces_bind; [apply Hf | intros _; apply IH].
Qed.

End Traces.

Lemma closes_nil : closesWhatItOpens [].
Proof. done. Qed.

Lemma closes_app evs1 evs2 :
  closesWhatItOpens evs1 -> closesWhatItOpens evs2 ->
  closesWhatItOpens (evs1 ++ evs2).
Proof. unfold closesWhatItOpens. rewrite !omap_app. by intros -> ->. Qed.

Create HintDb closing.

Ltac closing_shape :=
  repeat first
    [ solve [eauto 2 with closing nocore]
    | solve [intros [? ?]; reflexivity]
    | apply (traces_forEach _ closes_nil closes_app); intros ?
    | apply (traces_try _ closes_app); [|intros ?]
    | apply (traces_bind _ closes_app); [|intros ?]
    | match goal with
      | |- traces _ (match ?x with _ => _ end) => destruct x
      end ].

Lemma closes_showNotification a :
  traces closesWhatItOpens (showNotification a).
Proof. intros [[perm ci last sound mi] p]. by destruct perm, sound. Qed.
#[global] Hint Resolve closes_showNotification : closing.

Lemma closes_elapse n : traces closesWhatItOpens (elapse n).
Proof. induction n as [|n IH]; simpl; [|callers]; closing_shape. Qed.
#[global] Hint Resolve closes_elapse : closing.

Lemma closes_step op : traces closesWhatItOpens (step op).
Proof. destruct op; callers; closing_shape. Qed.
#[global] Hint Resolve closes_step : closing.

Lemma closes_constructor : traces closesWhatItOpens constructor.
Proof. callers. closing_shape. Qed.

(** X15.  Over the whole life of a manager, the 10-second closing timeouts
    scheduled are exactly the notifications constructed, one each and in
    the same order: every notification is set to close itself, and no
    closing timeout is scheduled for anything else. *)
Theorem every_notification_closes_itself (s : Sys) (ops : list Op) :
  omap opened (effects (constructor;; run ops) s)
  = omap closing (effects (constructor;; run ops) s).
Proof.
  assert (traces closesWhatItOpens (constructor;; run ops)) as H; [|apply H].
  apply (traces_bind _ closes_app); [apply closes_constructor|].
  intros _. unfold run. closing_shape.
Qed.

(** ** Without audio *)

Lemma mute_playSound :
  quietUnder noAudio (fun e => negb (isPlaySound e)) playSound.
Proof.
  intros [[perm ci last sound mi] p] [H1 H2]. simpl in H1. subst sound.
  by split.
Qed.

Lemma mute_createNotificationSound :
  quietUnder noAudio (fun e => negb (isPlaySound e)) createNotificationSound.
Proof.
  intros [m [iv nx f sh gw nw au bp pa]] [H1 H2]. simpl in H2. subst au.
  by split.
Qed.

Lemma mute_Notification_requestPermission :
  quietUnder noAudio (fun e => negb (isPlaySound e))
    Notification_requestPermission.
Proof.
  intros [m [iv nx f sh gw nw au bp pa]] [H1 H2]. simpl in *.
  by destruct pa.
Qed.
#[global] Hint Resolve mute_playSound mute_createNotificationSound
  mute_Notification_requestPermission : shape.

Lemma mute_showNotification a :
  quietUnder noAudio (fun e => negb (isPlaySound e)) (showNotification a).
Proof. unfold showNotification. shape. Qed.
#[global] Hint Resolve mute_showNotification : shape.

Lemma mute_init : quietUnder noAudio (fun e => negb (isPlaySound e)) init.
Proof.
  unfold init, startMonitoring_resume, startMonitoring_schedule,
    startMonitoring_call, checkForNewNotifications_call,
    checkForNewNotifications_resume, showPolled, showPermissionPrompt.
  shape.
Qed.

Lemma mute_elapse n :
  quietUnder noAudio (fun e => negb (isPlaySound e)) (elapse n).
Proof.
  induction n as [|n IH]; simpl; [by intros s Hs|].
  unfold elapseInterval, fire, checkForNewNotifications,
    checkForNewNotifications_call, checkForNewNotifications_resume, showPolled.
  shape.
Qed.
#[global] Hint Resolve mute_elapse : shape.

Lemma mute_step op :
  quietUnder noAudio (fun e => negb (isPlaySound e)) (step op).
Proof.
  destruct op;
    unfold step, requestPermission, triggerNotification, stopMonitoring,
      startMonitoring, startMonitoring_resume, startMonitoring_schedule,
      startMonitoring_call, checkForNewNotifications,
      checkForNewNotifications_call, checkForNewNotifications_resume,
      showPolled, showTestNotification, dismissPrompt, showSuccessMessage,
      showDeniedMessage;
    shape.
Qed.

Lemma mute_run ops :
  quietUnder noAudio (fun e => negb (isPlaySound e)) (run ops).
Proof. unfold run. apply quiet_forEach. apply mute_step. Qed.

Lemma constructor_init s :
  constructor s
  = init (mkSys (mkManager (browserPermission (platform s)) 30000 None false None)
            (platform s)).
Proof.
  destruct s as [m p]. unfold constructor, getPlatform, setThis, mbind, M_bind.
  simpl. by destruct (init _) as [[r s2] e2].
Qed.

(** X16.  The sound is optional.  On a browser where no [AudioContext] can
    be built the manager never gets a tone closure and no run ever plays a
    sound; a notification shown under granted permission is constructed and
    set to close all the same. *)
Theorem no_audio_no_sound (s : Sys) (ops : list Op) :
  audioAvailable (platform s) = false ->
  List.filter isPlaySound (effects (constructor;; run ops) s) = []
  /\ notificationSound (this (exec (constructor;; run ops) s)) = false
  /\ (forall a t,
        permission (this t) = PermGranted ->
        notificationSound (this t) = false ->
        effects (showNotification a) t
        = [NewNotification (shown (platform t)) (Args.title a) (optionsFor a);
           SetTimeout (nextTimerId (platform t))
             (CbCloseNotification (shown (platform t))) 10000]).
Proof.
  intros Ha.
  set (s1 := mkSys (mkManager (browserPermission (platform s)) 30000 None
                      false None) (platform s)).
  assert (noAudio s1) as H1 by (by split).
  destruct (mute_init s1 H1) as [H2 H3].
  destruct (mute_run ops _ H2) as [H4 H5].
  assert (constructor s = init s1) as Hc by apply constructor_init.
  assert (outcome init s1 = Normal tt) as Ho.
  { unfold outcome. rewrite <- Hc. apply constructor_outcome. }
  assert (exec (constructor;; run ops) s = exec (run ops) (exec init s1)) as He.
  { rewrite (exec_bind _ _ _ _ (constructor_outcome s)).
    unfold exec at 2 3. by rewrite Hc. }
  assert (effects (constructor;; run ops) s
          = effects init s1 ++ effects (run ops) (exec init s1)) as Hf.
  { rewrite (effects_bind _ _ _ _ (constructor_outcome s)).
    unfold effects at 1 3, exec at 1 2. by rewrite Hc. }
  split; [|split].
  - apply filter_none. rewrite Hf, forallb_app. by rewrite H3, H5.
  - rewrite He. apply H4.
  - intros a [[perm ci last sound mi] p]. simpl. by intros -> ->.
Qed.

Lemma no_audio_no_sound_witness :
  audioAvailable mutePage = false
  /\ List.filter isPlaySound
       (effects (constructor;; run afterLoad)
          (mkSys (mkManager PermDefault 0 None false None) mutePage)) = []
  /\ notificationSound
       (this (exec (constructor;; run afterLoad)
                (mkSys (mkManager PermDefault 0 None false None) mutePage)))
     = false.
Proof.
  split; [reflexivity|].
  destruct (no_audio_no_sound
              (mkSys (mkManager PermDefault 0 None false None) mutePage)
              afterLoad eq_refl) as (H1 & H2 & _).
  split; [exact H1|exact H2].
Defined.

(** ** The manual trigger *)

(** X17.  Under granted permission [triggerNotification] constructs exactly
    one notification, with the given title and message, the tag built from
    the clock and a click target of ['/jobs#job-<jobId>'] (['/jobs'] when
    the job id is missing or 0), and it sends no request; without the
    permission it only logs the refusal. *)
Theorem manual_trigger_displays_one_notification (s : Sys)
    (type title message : string) (jobId : option Z) :
  (permission (this s) = PermGranted ->
   displayed (effects (triggerNotification type title message jobId) s)
     = [(title,
         optionsFor (manualArgs type title message jobId (now (platform s))))]
   /\ fetchCount (effects (triggerNotification type title message jobId) s)
      = 0%nat)
  /\ (notGranted s ->
      effects (triggerNotification type title message jobId) s
      = [ConsoleLog "⊘ Cannot show notification - permission not granted"])
  /\ Options.body
       (optionsFor (manualArgs type title message jobId (now (platform s))))
     = message
  /\ clickTarget
       (Options.data
          (optionsFor (manualArgs type title message jobId (now (platform s)))))
     = jobUrl jobId.
Proof.
  destruct s as [[perm ci last sound mi] p]. simpl.
  split; [|split; [|split]].
  - intros ->. by destruct sound.
  - unfold notGranted. simpl. intros H.
    unfold effects, triggerNotification, showNotification, Date_now,
      getPlatform, getThis, mbind, M_bind. simpl. by rewrite H.
  - done.
  - unfold clickTarget, optionsFor, manualArgs. simpl.
    by rewrite jobUrl_nonempty.
Qed.

Lemma manual_trigger_displays_one_notification_witness :
  permission (this monitoringPage) = PermGranted
  /\ displayed
       (effects (triggerNotification "deadline" "Deadline" "Apply today" (Some 12))
          monitoringPage)
     = [("Deadline",
         optionsFor (manualArgs "deadline" "Deadline" "Apply today" (Some 12)
                       (now (platform monitoringPage))))]
  /\ fetchCount
       (effects (triggerNotification "deadline" "Deadline" "Apply today" (Some 12))
          monitoringPage) = 0%nat.
Proof.
  split; [reflexivity|].
  apply (manual_trigger_displays_one_notification monitoringPage "deadline"
           "Deadline" "Apply today" (Some 12)).
  reflexivity.
Defined.

(** * The event loop *)

(** ** Turns *)

Lemma spawn_eq {A} (m : M A) (k : A -> list Pending) l a :
  outcome m (sys l) = Normal a ->
  spawn m k l = (mkLoop (exec m (sys l)) (pending l ++ k a), effects m (sys l)).
Proof.
  unfold spawn, outcome, exec, effects.
  destruct (m (sys l)) as [[r s] evs]. simpl. by intros ->.
Qed.

Lemma loop_eta l : mkLoop (sys l) (pending l) = l.
Proof. by destruct l. Qed.

Lemma turn_stop l :
  turn (Calls CallStopMonitoring) l
  = (mkLoop (exec stopMonitoring (sys l)) (pending l),
     effects stopMonitoring (sys l)).
Proof.
  cbn [turn pageCall].
  rewrite (spawn_eq _ _ _ tt (stopMonitoring_outcome (sys l))).
  by rewrite app_nil_r.
Qed.

Lemma call_outcome s :
  outcome checkForNewNotifications_call s = Normal (nextOutcome s).
Proof. unfold outcome. by rewrite call_eq. Qed.

Lemma startMonitoring_call_outcome s :
  outcome startMonitoring_call s = Normal (nextOutcome s).
Proof. unfold outcome. by rewrite startMonitoring_call_eq. Qed.

Lemma startMonitoring_resume_outcome o s :
  outcome (startMonitoring_resume o) s = Normal tt.
Proof. unfold outcome. by rewrite startMonitoring_resume_eq. Qed.

Lemma turns_app ts us l :
  turns (ts ++ us) l
  = (fst (turns us (fst (turns ts l))),
     snd (turns ts l) ++ snd (turns us (fst (turns ts l)))).
Proof.
  revert l. induction ts as [|t ts IH]; intros l; simpl.
  - by destruct (turns us l).
  - destruct (turn t l) as [l1 e1]. rewrite IH.
    destruct (turns ts l1) as [l2 e2]. simpl.
    destruct (turns us l2) as [l3 e3]. simpl. by rewrite app_assoc.
Qed.

(** A call followed at once by the resumption of what it left waiting is
    the method run in place. *)
Lemma start_settled_at_once l :
  turns [Calls CallStartMonitoring; Settles (length (pending l))] l
  = (mkLoop (exec startMonitoring (sys l)) (pending l),
     effects startMonitoring (sys l)).
Proof.
  cbn [turns turn pageCall].
  rewrite (spawn_eq _ _ _ _ (startMonitoring_call_outcome (sys l))).
  cbn [turn sys pending fst snd].
  rewrite list_lookup_middle by done. rewrite delete_middle, app_nil_r.
  cbn [resume].
  rewrite (spawn_eq _ _ _ tt (startMonitoring_resume_outcome _ _)).
  cbn [sys pending fst snd]. rewrite !app_nil_r.
  pose proof (startMonitoring_call_eq (sys l)) as Hc.
  unfold startMonitoring.
  assert (exec startMonitoring_call (sys l)
          = exec checkForNewNotifications_call (sys l)) as He
    by (unfold exec at 1; by rewrite Hc).
  assert (effects startMonitoring_call (sys l)
          = [ConsoleLog "🔄 Starting notification monitoring..."; Fetch endpoint])
    as Hf by (unfold effects; by rewrite Hc).
  rewrite (exec_bind _ _ _ _ (startMonitoring_call_outcome (sys l))),
    (effects_bind _ _ _ _ (startMonitoring_call_outcome (sys l))).
  by rewrite He, Hf.
Qed.

Lemma constructor_call_then_resume s :
  constructor s
  = (constructor_call
       ≫= fun o => match o with
                   | Some o => startMonitoring_resume o
                   | None => mret tt
                   end) s.
Proof.
  destruct s as [m [iv nx f sh gw nw au bp pa]].
  unfold constructor, constructor_call, init, init_call, startMonitoring_call,
    checkForNewNotifications_call, fetch, createNotificationSound,
    setNotificationSound, showPermissionPrompt, console_log, console_warn,
    emit, getPlatform, setPlatform, getThis, setThis, mbind, M_bind, mret,
    M_ret.
  simpl. destruct bp, au; simpl; try done;
    by destruct (startMonitoring_resume (gw f) _) as [[r s2] e2].
Qed.

Lemma requestPermission_settle_then_resume :
  requestPermission
  = (requestPermission_settle
       ≫= fun o => match o with
                   | Some o => startMonitoring_resume o
                   | None => mret tt
                   end).
Proof. reflexivity. Qed.

(** ** After a stop *)

Lemma noStartAhead_lookup l i p :
  noStartAhead l = true -> pending l !! i = Some p -> isStartAhead p = false.
Proof.
  unfold noStartAhead. intros H Hp.
  apply list_elem_of_lookup_2, list_elem_of_In in Hp.
  rewrite forallb_forall in H. specialize (H _ Hp).
  by apply negb_true_iff in H.
Qed.

Lemma forallb_delete {A} (P : A -> bool) (l : list A) i :
  forallb P l = true -> forallb P (delete i l) = true.
Proof.
  revert i. induction l as [|x l IH]; intros i H; [done|].
  simpl in H. apply andb_true_iff in H as [H1 H2].
  destruct i as [|i]; simpl; [done|]. by rewrite H1, IH.
Qed.

(** With no timer and nothing waiting that could register one, time
    passing sends no request and changes neither fact. *)
Lemma idle_turn t l :
  isTimePassing t = true ->
  intervals (platform (sys l)) = ∅ -> noStartAhead l = true ->
  intervals (platform (sys (fst (turn t l)))) = ∅
  /\ noStartAhead (fst (turn t l)) = true
  /\ List.filter isFetch (snd (turn t l)) = [].
Proof.
  intros Ht He Hn. destruct t as [c|id|i]; [done| |].
  - simpl. by rewrite He, lookup_empty.
  - simpl. destruct (pending l !! i) as [p|] eqn:Hp; [|done].
    pose proof (noStartAhead_lookup l i p Hn Hp) as Hs.
    destruct p as [|o|o]; try discriminate. simpl.
    rewrite (spawn_eq _ _ _ tt (resume_outcome o _)). simpl.
    rewrite resume_intervals, resume_no_fetch, app_nil_r.
    repeat split; [done|]. unfold noStartAhead. simpl.
    by apply forallb_delete.
Qed.

Lemma idle_turns ts : forall l,
  forallb isTimePassing ts = true ->
  intervals (platform (sys l)) = ∅ -> noStartAhead l = true ->
  intervals (platform (sys (fst (turns ts l)))) = ∅
  /\ List.filter isFetch (snd (turns ts l)) = [].
Proof.
  induction ts as [|t ts IH]; intros l Ht He Hn; [done|].
  simpl in Ht. apply andb_true_iff in Ht as [Ht1 Ht2].
  destruct (idle_turn t l Ht1 He Hn) as (H1 & H2 & H3).
  simpl. destruct (turn t l) as [l1 e1]. simpl in *.
  destruct (IH l1 Ht2 H1 H2) as [H4 H5].
  destruct (turns ts l1) as [l2 e2]. simpl in *.
  split; [done|]. by rewrite List.filter_app, H3, H5.
Qed.

Lemma stopMonitoring_intervals s :
  intervals (platform (exec stopMonitoring s))
  = match monitoringInterval (this s) with
    | Some id => delete id (intervals (platform s))
    | None => intervals (platform s)
    end.
Proof. by destruct s as [[perm ci last sound [id|]] p]. Qed.

Lemma stopMonitoring_idle s :
  intervals (platform s) = ∅ ->
  intervals (platform (exec stopMonitoring s)) = ∅.
Proof.
  intros H. rewrite stopMonitoring_intervals, H.
  destruct (monitoringInterval (this s)); [apply delete_empty|done].
Qed.

Lemma stopMonitoring_this s : this (exec stopMonitoring s) = this s.
Proof. by destruct s as [[perm ci last sound [id|]] p]. Qed.



(** A stop issued while a [startMonitoring] is still waiting for its first
    poll finds no handle and does nothing; the timer is registered when
    the start resumes, and polls from then on. *)
Lemma stop_before_the_start_settles_is_lost :
  onlyTrackedTimer (sys startPending) = true
  /\ noStartAhead startPending = false
  /\ turn (Calls CallStopMonitoring) startPending = (startPending, [])
  /\ List.filter isFetch
       (snd (turns [Settles 0; Fires 1; Fires 1] (stopped startPending)))
     = [Fetch endpoint; Fetch endpoint].
Proof. vm_compute. by repeat split. Qed.

(** ** One manager, started once at a time *)

Lemma spawn_sys {A} (m : M A) (k : A -> list Pending) l :
  sys (fst (spawn m k l)) = exec m (sys l).
Proof.
  unfold spawn, exec. by destruct (m (sys l)) as [[[a|e] s] evs].
Qed.

Lemma spawn_effects {A} (m : M A) (k : A -> list Pending) l :
  snd (spawn m k l) = effects m (sys l).
Proof.
  unfold spawn, effects. by destruct (m (sys l)) as [[[a|e] s] evs].
Qed.

Lemma spawn_pending {A} (m : M A) (k : A -> list Pending) l :
  pending (fst (spawn m k l))
  = pending l ++ match outcome m (sys l) with
                 | Normal a => k a
                 | Throw _ => []
                 end.
Proof.
  unfold spawn, outcome. destruct (m (sys l)) as [[[a|e] s] evs]; simpl; [done|].
  by rewrite app_nil_r.
Qed.

Lemma spawn_quiet_pending {A} (m : M A) l :
  pending (fst (spawn m (fun _ => []) l)) = pending l.
Proof.
  rewrite spawn_pending. destruct (outcome m (sys l)); by rewrite app_nil_r.
Qed.

Lemma filter_delete_length {A} (f : A -> bool) (l : list A) i x :
  l !! i = Some x ->
  length (List.filter f l)
  = (length (List.filter f (delete i l)) + (if f x then 1 else 0))%nat.
Proof.
  revert i. induction l as [|y l IH]; intros i H; [done|].
  destruct i as [|i]; simpl in *.
  - injection H as ->. destruct (f x); simpl; lia.
  - specialize (IH _ H). destruct (f y); simpl; lia.
Qed.

Lemma noStartAhead_count l : noStartAhead l = true <-> startsAhead l = 0%nat.
Proof.
  unfold noStartAhead, startsAhead.
  induction (pending l) as [|p ps IH]; simpl; [done|].
  destruct (isStartAhead p); simpl; [split; [done|lia]|done].
Qed.

Lemma tracking_same l l' :
  pending l' = pending l ->
  intervals (platform (sys l')) = intervals (platform (sys l)) ->
  monitoringInterval (this (sys l')) = monitoringInterval (this (sys l)) ->
  tracking l -> tracking l'.
Proof.
  unfold tracking, noPermissionAhead, startsAhead.
  intros -> Hi Hm [Hp H]. split; [done|].
  rewrite Hi, (tracked_same _ _ Hi Hm). done.
Qed.

Lemma tracking_poll_queued l l' o :
  pending l' = pending l ++ [AwaitingCheck o] ->
  intervals (platform (sys l')) = intervals (platform (sys l)) ->
  monitoringInterval (this (sys l')) = monitoringInterval (this (sys l)) ->
  tracking l -> tracking l'.
Proof.
  unfold tracking, noPermissionAhead, startsAhead.
  intros -> Hi Hm [Hp H]. split.
  - rewrite forallb_app, Hp. done.
  - rewrite Hi, (tracked_same _ _ Hi Hm), List.filter_app. simpl.
    by rewrite app_nil_r.
Qed.

Lemma noPermissionAhead_lookup l i :
  noPermissionAhead l = true -> pending l !! i <> Some AwaitingPermission.
Proof.
  unfold noPermissionAhead. intros H Hp.
  apply list_elem_of_lookup_2, list_elem_of_In in Hp.
  rewrite forallb_forall in H. by specialize (H _ Hp).
Qed.

Lemma tracking_stop l : tracking l -> tracking (stopped l).
Proof.
  unfold stopped. rewrite turn_stop. cbn [fst].
  unfold tracking, noPermissionAhead, startsAhead. cbn [sys pending].
  intros [Hp [[H0 Ht]|[H1 He]]]; (split; [done|]).
  - left. split; [done|].
    apply tracked_idle. by apply stopMonitoring_clears_tracked.
  - right. split; [done|]. by apply stopMonitoring_idle.
Qed.

(** Whatever the page calls short of starting, whichever timers fire and
    whichever continuations resume, the bookkeeping stays sound. *)
Lemma tracking_turn t l :
  isStarting t = false -> tracking l -> tracking (fst (turn t l)).
Proof.
  intros Hs Ht. destruct t as [c|id|i].
  - destruct c as [| | | |a|type title message jobId]; try discriminate.
    + by apply tracking_stop.
    + cbn [turn pageCall].
      apply (tracking_poll_queued l _ (nextOutcome (sys l))); [| | |done].
      * by rewrite spawn_pending, call_outcome.
      * by rewrite spawn_sys, call_intervals.
      * by rewrite spawn_sys, call_this.
    + cbn [turn pageCall]. apply (tracking_same l); [| | |done].
      * apply spawn_quiet_pending.
      * rewrite spawn_sys. apply intervals_showNotification.
      * rewrite spawn_sys. by rewrite this_showNotification.
    + cbn [turn pageCall]. apply (tracking_same l); [| | |done].
      * apply spawn_quiet_pending.
      * rewrite spawn_sys. apply intervals_triggerNotification.
      * rewrite spawn_sys. by rewrite this_triggerNotification.
  - cbn [turn].
    destruct (intervals (platform (sys l)) !! id) as [[[] ms]|]; try done.
    apply (tracking_poll_queued l _ (nextOutcome (sys l))); [| | |done].
    + by rewrite spawn_pending, call_outcome.
    + by rewrite spawn_sys, call_intervals.
    + by rewrite spawn_sys, call_this.
  - cbn [turn]. destruct (pending l !! i) as [p|] eqn:Hp; [|done].
    destruct Ht as [Hn Ht].
    pose proof (filter_delete_length isStartAhead _ _ _ Hp) as Hc.
    fold (startsAhead l) in Hc.
    assert (noPermissionAhead (mkLoop (sys l) (delete i (pending l))) = true)
      as Hn' by (by apply forallb_delete).
    destruct p as [|o|o].
    + by destruct (noPermissionAhead_lookup l i Hn).
    + cbn [resume]. simpl in Hc. split.
      * unfold noPermissionAhead. by rewrite spawn_quiet_pending.
      * unfold startsAhead. rewrite spawn_quiet_pending, spawn_sys.
        cbn [sys pending]. rewrite resume_intervals.
        assert (onlyTrackedTimer
                  (exec (checkForNewNotifications_resume o) (sys l))
                = onlyTrackedTimer (sys l)) as ->.
        { apply tracked_same; [apply resume_intervals|].
          by rewrite resume_this. }
        rewrite Nat.add_0_r in Hc. by rewrite <- Hc.
    + cbn [resume]. simpl in Hc. split.
      * unfold noPermissionAhead. by rewrite spawn_quiet_pending.
      * left. unfold startsAhead. rewrite spawn_quiet_pending, spawn_sys.
        cbn [sys pending].
        destruct Ht as [[H0 _]|[H1 He]]; [lia|].
        split; [lia|].
        destruct (startMonitoring_resume_spec o (sys l))
          as (id & Hthis & Hiv & _).
        rewrite He in Hiv.
        apply (tracked_singleton _ id _ Hiv). by rewrite Hthis.
Qed.

Lemma tracking_turns ts : forall l,
  forallb (fun t => negb (isStarting t)) ts = true ->
  tracking l -> tracking (fst (turns ts l)).
Proof.
  induction ts as [|t ts IH]; intros l H Ht; [done|].
  simpl in H. apply andb_true_iff in H as [H1 H2].
  apply negb_true_iff in H1.
  pose proof (tracking_turn t l H1 Ht) as Ht1.
  simpl. destruct (turn t l) as [l1 e1]. simpl in Ht1.
  specialize (IH l1 H2 Ht1).
  by destruct (turns ts l1) as [l2 e2].
Qed.

(** ** Restarting *)

Lemma stopMonitoring_nextOutcome s :
  nextOutcome (exec stopMonitoring s) = nextOutcome s.
Proof. by destruct s as [[perm ci last sound [id|]] p]. Qed.

Lemma stopMonitoring_checkInterval s :
  checkInterval (this (exec stopMonitoring s)) = checkInterval (this s).
Proof. by rewrite stopMonitoring_this. Qed.

Lemma turn_start l :
  turn (Calls CallStartMonitoring) l
  = (mkLoop (exec checkForNewNotifications_call (sys l))
       (pending l ++ [AwaitingStart (nextOutcome (sys l))]),
     [ConsoleLog "🔄 Starting notification monitoring..."; Fetch endpoint]).
Proof.
  cbn [turn pageCall]. unfold spawn. by rewrite startMonitoring_call_eq.
Qed.

Lemma turn_settle_last l p :
  turn (Settles (length (pending l))) (mkLoop (sys l) (pending l ++ [p]))
  = resume p l.
Proof.
  cbn [turn pending sys]. rewrite list_lookup_middle by done.
  rewrite delete_middle, app_nil_r. by rewrite loop_eta.
Qed.

Lemma resume_start_sys o l :
  sys (fst (resume (AwaitingStart o) l)) = exec (startMonitoring_resume o) (sys l).
Proof. apply spawn_sys. Qed.

Lemma resume_start_pending o l :
  pending (fst (resume (AwaitingStart o) l)) = pending l.
Proof. apply spawn_quiet_pending. Qed.

(** X12.  Monitoring can be restarted, once the restart has settled.  When
    every active timer is the recorded one and no start is waiting, a stop
    followed by a start leaves no timer and the start waiting for its first
    poll.  When that start resumes, one timer with the manager's
    [checkInterval] is active and recorded, and a stop issued then leaves
    none.  A stop issued before the start resumes is lost: the start still
    registers its timer afterwards. *)
Theorem restart_leaves_one_tracked_timer (l : Loop) :
  onlyTrackedTimer (sys l) = true ->
  noStartAhead l = true ->
  let restarted :=
    fst (turns [Calls CallStopMonitoring; Calls CallStartMonitoring] l) in
  let settled := fst (turn (Settles (length (pending l))) restarted) in
  let lost := fst (turn (Settles (length (pending l))) (stopped restarted)) in
  pending restarted = pending l ++ [AwaitingStart (nextOutcome (sys l))]
  /\ intervals (platform (sys restarted)) = ∅
  /\ pending settled = pending l
  /\ (exists id,
        monitoringInterval (this (sys settled)) = Some id
        /\ intervals (platform (sys settled))
           = {[ id := (CbCheckForNewNotifications, checkInterval (this (sys l))) ]})
  /\ noStartAhead settled = true
  /\ intervals (platform (sys (stopped settled))) = ∅
  /\ (exists id,
        intervals (platform (sys lost))
        = {[ id := (CbCheckForNewNotifications, checkInterval (this (sys l))) ]}).
Proof.
  intros Ht Hn restarted settled lost.
  assert (restarted
          = mkLoop (exec checkForNewNotifications_call
                      (exec stopMonitoring (sys l)))
              (pending l ++ [AwaitingStart (nextOutcome (sys l))])) as Hr.
  { subst restarted. cbn [turns]. rewrite turn_stop, turn_start.
    cbn [fst sys pending]. by rewrite stopMonitoring_nextOutcome. }
  set (s1 := exec checkForNewNotifications_call (exec stopMonitoring (sys l)))
    in *.
  assert (intervals (platform s1) = ∅) as He.
  { subst s1. rewrite call_intervals.
    by apply stopMonitoring_clears_tracked. }
  assert (checkInterval (this s1) = checkInterval (this (sys l))) as Hc.
  { subst s1. by rewrite call_this, stopMonitoring_this. }
  assert (settled
          = fst (resume (AwaitingStart (nextOutcome (sys l)))
                   (mkLoop s1 (pending l)))) as Hs.
  { subst settled. rewrite Hr.
    by rewrite <- (turn_settle_last (mkLoop s1 (pending l))). }
  destruct (startMonitoring_resume_spec (nextOutcome (sys l)) s1)
    as (id & Hthis & Hiv & _).
  rewrite He, Hc in Hiv.
  assert (sys settled = exec (startMonitoring_resume (nextOutcome (sys l))) s1)
    as Hss by (by rewrite Hs, resume_start_sys).
  assert (pending settled = pending l)
    as Hsp by (by rewrite Hs, resume_start_pending).
  assert (monitoringInterval (this (sys settled)) = Some id)
    as Hid by (by rewrite Hss, Hthis).
  split; [by rewrite Hr|]. split; [by rewrite Hr|]. split; [done|].
  split; [exists id; split; [done|]; by rewrite Hss, Hiv, insert_empty|].
  split; [unfold noStartAhead; by rewrite Hsp|].
  split.
  { unfold stopped. rewrite turn_stop. cbn [fst sys].
    apply stopMonitoring_clears_tracked.
    apply (tracked_singleton _ id
             (CbCheckForNewNotifications, checkInterval (this (sys l))));
      [by rewrite Hss, Hiv|done]. }
  assert (stopped restarted
          = mkLoop (exec stopMonitoring s1)
              (pending l ++ [AwaitingStart (nextOutcome (sys l))])) as Hl.
  { unfold stopped. rewrite turn_stop, Hr. done. }
  destruct (startMonitoring_resume_spec (nextOutcome (sys l))
              (exec stopMonitoring s1)) as (id' & _ & Hiv' & _).
  rewrite (stopMonitoring_idle _ He), stopMonitoring_this, Hc in Hiv'.
  exists id'. subst lost. rewrite Hl.
  rewrite (turn_settle_last (mkLoop (exec stopMonitoring s1) (pending l))).
  rewrite resume_start_sys. cbn [sys]. by rewrite Hiv', insert_empty.
Qed.

Lemma restart_leaves_one_tracked_timer_witness :
  onlyTrackedTimer (sys pollInFlight) = true
  /\ noStartAhead pollInFlight = true
  /\ length (pending pollInFlight) = 1%nat
  /\ (let restarted :=
        fst (turns [Calls CallStopMonitoring; Calls CallStartMonitoring]
               pollInFlight) in
      let settled := fst (turn (Settles (length (pending pollInFlight))) restarted) in
      let lost :=
        fst (turn (Settles (length (pending pollInFlight))) (stopped restarted)) in
      pending restarted
      = pending pollInFlight ++ [AwaitingStart (nextOutcome (sys pollInFlight))]
      /\ intervals (platform (sys restarted)) = ∅
      /\ pending settled = pending pollInFlight
      /\ (exists id,
            monitoringInterval (this (sys settled)) = Some id
            /\ intervals (platform (sys settled))
               = {[ id := (CbCheckForNewNotifications,
                           checkInterval (this (sys pollInFlight))) ]})
      /\ noStartAhead settled = true
      /\ intervals (platform (sys (stopped settled))) = ∅
      /\ (exists id,
            intervals (platform (sys lost))
            = {[ id := (CbCheckForNewNotifications,
                        checkInterval (this (sys pollInFlight))) ]})).
Proof.
  split; [reflexivity|]. split; [reflexivity|]. split; [reflexivity|].
  apply (restart_leaves_one_tracked_timer pollInFlight); reflexivity.
Defined.

(** ** Loading and leaving the page *)

Lemma constructor_call_spec p :
  let o := if permission_eqb (browserPermission p) PermGranted
           then Some (gateway p (fetches p)) else None in
  outcome constructor_call (newPage p) = Normal o
  /\ intervals (platform (exec constructor_call (newPage p))) = intervals p
  /\ List.filter isFetch (effects constructor_call (newPage p))
     = (if permission_eqb (browserPermission p) PermGranted
        then [Fetch endpoint] else [])
  /\ List.filter isIntervalEvent (effects constructor_call (newPage p)) = [].
Proof.
  destruct p as [iv nx f sh gw nw au bp pa].
  by destruct bp, au.
Qed.

Lemma loaded_eq p :
  onDOMContentLoaded true true p
  = (Normal tt,
     Some (mkLoop (exec constructor_call (newPage p))
             (startedBy (if permission_eqb (browserPermission p) PermGranted
                         then Some (gateway p (fetches p)) else None))),
     effects constructor_call (newPage p)
       ++ [ConsoleLog "✅ Browser Notifications Ready"]).
Proof.
  destruct (constructor_call_spec p) as (Ho & _).
  unfold onDOMContentLoaded. fold (newPage p).
  rewrite (run_eta constructor_call (newPage p)), Ho. done.
Qed.

Lemma loaded_tracking p l0 evs :
  intervals p = ∅ ->
  onDOMContentLoaded true true p = (Normal tt, Some l0, evs) ->
  tracking l0.
Proof.
  intros He. rewrite loaded_eq. intros [= <- _].
  destruct (constructor_call_spec p) as (_ & Hi & _).
  unfold tracking, noPermissionAhead, startsAhead. cbn [sys pending].
  destruct (permission_eqb (browserPermission p) PermGranted); simpl.
  - split; [done|]. right. split; [done|]. by rewrite Hi.
  - split; [done|]. left. split; [done|]. apply tracked_idle. by rewrite Hi.
Qed.

(** X11.  The page wiring.  Without the dashboard link of a logged-in user
    nothing is constructed and the unload handler does nothing.  With it,
    on a browser without [Notification] the constructor throws and no
    manager is stored; otherwise a manager is stored and announced as soon
    as the constructor returns: by then at most the first request was
    sent, when the browser already holds permission, no interval timer is
    registered yet, and the [startMonitoring] begun by [init] is still
    waiting.  On a page that loaded without timers and never starts
    monitoring or asks for permission itself, an unload that comes when no
    start is waiting leaves no timer, and from then on timer periods and
    the polls in flight send no request. *)
Theorem unload_stops_polling (p : Platform) (l0 : Loop) (evs : list Event)
    (ts us : list Turn) :
  (forall supported, onDOMContentLoaded false supported p = (Normal tt, None, []))
  /\ onDOMContentLoaded true false p = (Throw ReferenceError, None, [])
  /\ onBeforeUnload None = (None, [])
  /\ (exists l evs', onDOMContentLoaded true true p = (Normal tt, Some l, evs'))
  /\ (onDOMContentLoaded true true p = (Normal tt, Some l0, evs) ->
      pending l0
      = (if permission_eqb (browserPermission p) PermGranted
         then [AwaitingStart (gateway p (fetches p))] else [])
      /\ List.filter isFetch evs
         = (if permission_eqb (browserPermission p) PermGranted
            then [Fetch endpoint] else [])
      /\ List.filter isIntervalEvent evs = []
      /\ last evs = Some (ConsoleLog "✅ Browser Notifications Ready")
      /\ intervals (platform (sys l0)) = intervals p
      /\ (intervals p = ∅ ->
          forallb (fun t => negb (isStarting t)) ts = true ->
          noStartAhead (fst (turns ts l0)) = true ->
          forallb isTimePassing us = true ->
          exists l',
            fst (onBeforeUnload (Some (fst (turns ts l0)))) = Some l'
            /\ intervals (platform (sys l')) = ∅
            /\ List.filter isFetch (snd (turns us l')) = []
            /\ intervals (platform (sys (fst (turns us l')))) = ∅)).
Proof.
  split; [done|]. split; [done|]. split; [done|].
  split; [rewrite loaded_eq; by eexists _, _|].
  intros Hl. pose proof Hl as Hl'. rewrite loaded_eq in Hl'.
  injection Hl' as <- <-.
  destruct (constructor_call_spec p) as (Ho & Hi & Hf & Hiv).
  split.
  { cbn [pending]. by destruct (permission_eqb _ _). }
  split.
  { rewrite List.filter_app, Hf. simpl. by rewrite app_nil_r. }
  split.
  { rewrite List.filter_app, Hiv. done. }
  split; [apply last_snoc|]. split; [done|].
  intros He Hts Hn Hus.
  pose proof (tracking_turns ts _ Hts (loaded_tracking p _ _ He Hl)) as Ht.
  set (l := fst (turns ts _)) in *.
  exists (stopped l). split; [done|].
  destruct Ht as [_ [[_ Ht]|[H1 _]]];
    [|apply noStartAhead_count in Hn; lia].
  assert (intervals (platform (sys (stopped l))) = ∅) as Hs.
  { unfold stopped. rewrite turn_stop. cbn [fst sys].
    by apply stopMonitoring_clears_tracked. }
  split; [done|].
  assert (noStartAhead (stopped l) = true) as Hn'.
  { unfold stopped. by rewrite turn_stop. }
  destruct (idle_turns us (stopped l) Hus Hs Hn') as [H2 H3].
  done.
Qed.

Lemma unload_stops_polling_witness :
  onDOMContentLoaded true true newsBrowser
  = (Normal tt, Some newsLoop,
     effects constructor_call (newPage newsBrowser)
       ++ [ConsoleLog "✅ Browser Notifications Ready"])
  /\ intervals newsBrowser = ∅
  /\ forallb (fun t => negb (isStarting t))
       [Settles 0; Fires 2; Calls (CallTriggerNotification "deadline" "Soon" "Apply" None)]
     = true
  /\ size (intervals
             (platform
                (sys (fst (turns
                             [Settles 0; Fires 2;
                              Calls (CallTriggerNotification "deadline" "Soon" "Apply" None)]
                             newsLoop))))) = 1%nat
  /\ noStartAhead
       (fst (turns
               [Settles 0; Fires 2;
                Calls (CallTriggerNotification "deadline" "Soon" "Apply" None)]
               newsLoop)) = true
  /\ forallb isTimePassing [Settles 0; Fires 2; Fires 2] = true
  /\ exists l',
       fst (onBeforeUnload
              (Some (fst (turns
                            [Settles 0; Fires 2;
                             Calls (CallTriggerNotification "deadline" "Soon" "Apply" None)]
                            newsLoop)))) = Some l'
       /\ intervals (platform (sys l')) = ∅
       /\ List.filter isFetch (snd (turns [Settles 0; Fires 2; Fires 2] l')) = []
       /\ intervals
            (platform (sys (fst (turns [Settles 0; Fires 2; Fires 2] l')))) = ∅.
Proof.
  assert (onDOMContentLoaded true true newsBrowser
          = (Normal tt, Some newsLoop,
             effects constructor_call (newPage newsBrowser)
               ++ [ConsoleLog "✅ Browser Notifications Ready"])) as Hl
    by reflexivity.
  split; [exact Hl|]. split; [reflexivity|]. split; [reflexivity|].
  split; [reflexivity|]. split; [reflexivity|]. split; [reflexivity|].
  destruct (unload_stops_polling newsBrowser newsLoop
              (effects constructor_call (newPage newsBrowser)
                 ++ [ConsoleLog "✅ Browser Notifications Ready"])
              [Settles 0; Fires 2;
               Calls (CallTriggerNotification "deadline" "Soon" "Apply" None)]
              [Settles 0; Fires 2; Fires 2])
    as (_ & _ & _ & _ & H).
  destruct (H Hl) as (_ & _ & _ & _ & _ & Hu).
  apply Hu; reflexivity.
Defined.

(** An unload that comes while the [startMonitoring] begun by [init] is
    still waiting finds no handle: the timer is registered when the start
    resumes and goes on polling. *)
Lemma unload_before_the_start_settles_is_lost :
  noStartAhead newsLoop = false
  /\ onBeforeUnload (Some newsLoop) = (Some newsLoop, [])
  /\ List.filter isFetch (snd (turns [Settles 0; Fires 2; Fires 2] newsLoop))
     = [Fetch endpoint; Fetch endpoint].
Proof. vm_compute. by repeat split. Qed.
